(** * kwark-sync: the mapping store, the sync orchestrator and the webhook
      receiver, embedded from the Python sources.

    The development follows the modules of the repository:

    - [mapping_store.py]   : [load_mapping], [save_mapping],
                             [add_or_update_mapping], [get_riseup_step_id];
    - [config.py]          : [validate_config], [get_full_webhook_url];
    - [learningbox_client.py] : [get_catalog], [request_scorm_export];
    - [sync_courses.py]    : [download_content], [sync_course_structure],
                             [main] and the body of its [for] loop;
    - [webhook_handler.py] : [handle_learningbox_webhook].

    Python values are the JSON fragment the program manipulates (floats are
    left out: the program never computes with one).  Effects are explicit: a computation is a
    function from a [world] (the mapping file and the trace of what has been
    done so far) to an [outcome] (a value or a raised exception) and the
    world it leaves behind.  The two REST APIs are oracles: the answer to a
    call may depend on everything that happened before it. *)

From Stdlib Require Import ZArith List String Ascii Bool Lia DecimalString.
From Stdlib Require Import DecimalZ DecimalPos.
From Stdlib Require Import Strings.Byte.
Import ListNotations.
Open Scope string_scope.
Set Warnings "-register-all".

(* ================================================================== *)
(** ** Python values *)

Inductive pyval : Type :=
| PyNone
| PyBool (b : bool)
| PyInt (z : Z)
| PyStr (s : string)
| PyList (l : list pyval)
| PyDict (d : list (string * pyval)).

(** A [dict] keeps insertion order; it is an association list in which a key
    is looked up at its first occurrence. *)
Definition pydict := list (string * pyval).

Fixpoint dict_get (d : pydict) (k : string) : option pyval :=
  match d with
  | [] => None
  | (k', v) :: d' => if String.eqb k' k then Some v else dict_get d' k
  end.

(** [d[k] = v] : overwrite in place, or append a new key. *)
Fixpoint dict_set (d : pydict) (k : string) (v : pyval) : pydict :=
  match d with
  | [] => [(k, v)]
  | (k', v') :: d' =>
      if String.eqb k' k then (k', v) :: d' else (k', v') :: dict_set d' k v
  end.

Definition dict_has (d : pydict) (k : string) : bool :=
  match dict_get d k with Some _ => true | None => false end.

(** [bool(v)] *)
Definition py_truthy (v : pyval) : bool :=
  match v with
  | PyNone => false
  | PyBool b => b
  | PyInt z => negb (Z.eqb z 0)
  | PyStr s => match s with EmptyString => false | _ => true end
  | PyList l => match l with [] => false | _ => true end
  | PyDict d => match d with [] => false | _ => true end
  end.

(** [str(n)] for an [int]: the decimal numeral, ["-"] in front of a negative
    one. *)
Definition str_of_int (z : Z) : string := NilZero.string_of_int (Z.to_int z).

(** [needle in hay] on two [str]: substring test. *)
Fixpoint str_contains (needle hay : string) : bool :=
  if prefix needle hay then true
  else match hay with
       | EmptyString => false
       | String _ hay' => str_contains needle hay'
       end.

(** [s.rstrip('/')] *)
Fixpoint rstrip_slash (s : string) : string :=
  match s with
  | EmptyString => EmptyString
  | String c s' =>
      match rstrip_slash s' with
      | EmptyString => if Ascii.eqb c "/" then EmptyString else String c EmptyString
      | r => String c r
      end
  end.

(* ================================================================== *)
(** ** Exceptions *)

(** The exception classes the sources name in an [except] clause, and the
    ones the built-in operations of the model raise.  [UnicodeDecodeError]
    and [JSONDecodeError] both derive from [ValueError] and neither from
    the other; [RecursionError] derives from [RuntimeError], which no
    [except] clause of the sources names.  [IOError] is
    [OSError]; [ConnectionError] is the built-in one (the sources never
    import the one of [requests]); [RequestException] is the class of
    [requests], which derives from [IOError]. *)
Inductive exn : Type :=
| Exception
| ValueError
| JSONDecodeError
| UnicodeDecodeError
| binascii_Error
| IOError
| ConnectionError
| RequestException
| TypeError
| AttributeError
| KeyError
| RecursionError.

Scheme Equality for exn.

(** The class itself followed by its base classes, up to [Exception]. *)
Definition mro (e : exn) : list exn :=
  match e with
  | Exception => [Exception]
  | ValueError => [ValueError; Exception]
  | JSONDecodeError => [JSONDecodeError; ValueError; Exception]
  | UnicodeDecodeError => [UnicodeDecodeError; ValueError; Exception]
  | binascii_Error => [binascii_Error; ValueError; Exception]
  | IOError => [IOError; Exception]
  | ConnectionError => [ConnectionError; IOError; Exception]
  | RequestException => [RequestException; IOError; Exception]
  | TypeError => [TypeError; Exception]
  | AttributeError => [AttributeError; Exception]
  | KeyError => [KeyError; Exception]
  | RecursionError => [RecursionError; Exception]
  end.

(** [isinstance(e, c)]: does [except c] catch [e]? *)
Definition isinstance (e c : exn) : bool := existsb (exn_beq c) (mro e).

Inductive outcome (A : Type) : Type :=
| Ret (a : A)
| Raise (e : exn).
Arguments Ret {A} a.
Arguments Raise {A} e.

(* ================================================================== *)
(** ** Built-in operations on values that may raise *)

(** [v.get(k, default)]: only a [dict] has the method. *)
Definition py_get (v : pyval) (k : string) (default : pyval) : outcome pyval :=
  match v with
  | PyDict d => Ret (match dict_get d k with Some x => x | None => default end)
  | _ => Raise AttributeError
  end.

(** [v[k] = x] with a [str] key. *)
Definition py_setitem (v : pyval) (k : string) (x : pyval) : outcome pyval :=
  match v with
  | PyDict d => Ret (PyDict (dict_set d k x))
  | _ => Raise TypeError
  end.

(** [v[k]] with a [str] key. *)
Definition py_getitem (v : pyval) (k : string) : outcome pyval :=
  match v with
  | PyDict d => match dict_get d k with Some x => Ret x | None => Raise KeyError end
  | _ => Raise TypeError
  end.

Definition is_str (k : string) (v : pyval) : bool :=
  match v with PyStr s => String.eqb s k | _ => false end.

(** [k in v] with a [str] on the left: key of a dict, element of a list,
    substring of a string; the other values are not containers. *)
Definition py_contains (k : string) (v : pyval) : outcome bool :=
  match v with
  | PyDict d => Ret (dict_has d k)
  | PyList l => Ret (existsb (is_str k) l)
  | PyStr s => Ret (str_contains k s)
  | _ => Raise TypeError
  end.

(** [len(v)] *)
Definition py_len (v : pyval) : outcome nat :=
  match v with
  | PyDict d => Ret (List.length d)
  | PyList l => Ret (List.length l)
  | PyStr s => Ret (String.length s)
  | _ => Raise TypeError
  end.

Fixpoint chars_of (s : string) : list pyval :=
  match s with
  | EmptyString => []
  | String c s' => PyStr (String c EmptyString) :: chars_of s'
  end.

(** [for x in v]: the elements of a list, the keys of a dict, the
    characters of a string. *)
Definition py_iter (v : pyval) : outcome (list pyval) :=
  match v with
  | PyList l => Ret l
  | PyDict d => Ret (map (fun kv => PyStr (fst kv)) d)
  | PyStr s => Ret (chars_of s)
  | _ => Raise TypeError
  end.

(* ================================================================== *)
(** ** What the program talks to *)

(** The methods of [RiseUpClient] (Target LMS).  Their bodies are HTTP
    plumbing; a call is an event answered by the oracle. *)
Inductive riseup_call : Type :=
| create_course (title description objective reference eduduration : pyval)
                (language : string) (keywords : list pyval)
| create_module (course_id : pyval) (title reference : string) (eduduration : pyval)
| create_scorm_step (module_id : pyval) (title reference : string)
| upload_scorm_content (step_id : pyval) (file_content : list byte) (filename : string)
| upload_course_image (course_id : pyval) (image_content : list byte) (filename : string)
| upload_course_banner (course_id : pyval) (banner_content : list byte) (filename : string).

(** Lines printed by [main] that the specification talks about. *)
Inductive printed : Type :=
| InitializationError
| NoCoursesFound
| SyncProcessComplete (success_count skip_count fail_count : nat).

Inductive event : Type :=
| RiseUp (c : riseup_call) (r : outcome pyval)
| LearningBox (method endpoint : string) (json : option pyval) (r : outcome pyval)
| Download (url : pyval) (r : outcome (list byte * string))
| B64Decode (s : string)
| FileWrite (mapping_data : pyval) (ok : bool)
| Print (m : printed).

(** The ways [json.load(f)] fails on a file opened in text mode other than
    by a [JSONDecodeError]: [f.read()] meets bytes that are not text in the
    default encoding; the parser recurses deeper than the interpreter
    allows; an integer literal has more digits than [int] converts. *)
Inductive load_error : Type :=
| undecodable_bytes
| nesting_too_deep
| number_too_long.

Definition load_exn (c : load_error) : exn :=
  match c with
  | undecodable_bytes => UnicodeDecodeError
  | nesting_too_deep => RecursionError
  | number_too_long => ValueError
  end.

(** The file at [config.MAPPING_FILE_PATH], as [load_mapping] can find it.
    The file is taken as text: what [json.load] does with it is either to
    reject it or to return a value.  Serialisation is not modelled; a value
    that [json.dump] wrote is the value [json.load] reads back. *)
Inductive mapping_file : Type :=
| Missing                 (* [os.path.exists] is false *)
| Unreadable              (* [open(.., 'r')] raises [IOError] *)
| Garbled                 (* readable; [json.load] raises [JSONDecodeError] *)
| Refused (c : load_error) (* readable; [json.load] raises [load_exn c] *)
| Stored (v : pyval).     (* readable; [json.load] returns [v] *)

Record world : Type := mkWorld {
  w_file : mapping_file;
  w_writable : bool;      (* does a write to the file go through? *)
  w_trace : list event    (* oldest event first *)
}.

(** Library functions of Python the sources call and this development does
    not re-implement. *)
Record pylib : Type := mkPylib {
  repr_container : pyval -> string;         (* [str] of a list or a dict *)
  int_of_str : string -> option Z;          (* [int(s)]; [None]: ValueError *)
  parse_qs : string -> outcome (list (string * list string));
  b64decode : string -> outcome (list byte);
  (* where a write that does not go through fails: [true] when it is
     [open(.., 'w')] that raises, the file being left as it was; [false]
     when [open] has truncated the file and [json.dump] or the closing of
     the file raises *)
  write_fails_at_open : list event -> bool
}.

(** The two remote systems and the download host.  Each answer may depend on
    the whole history. *)
Record remote : Type := mkRemote {
  riseup : list event -> riseup_call -> outcome pyval;
  learningbox : list event -> string -> string -> option pyval -> outcome pyval;
  requests_get : list event -> pyval -> outcome (list byte * string)
}.

(** [config.py]: the environment variables after [load_dotenv]. *)
Record config : Type := mkConfig {
  RISEUP_PUBLIC_KEY : option string;
  RISEUP_PRIVATE_KEY : option string;
  RISEUP_API_ENDPOINT : option string;
  RISEUP_CREATOR_USER_ID : Z;
  LEARNINGBOX_API_KEY : option string;
  LEARNINGBOX_API_ENDPOINT : option string;
  WEBHOOK_BASE_URL : option string;
  WEBHOOK_PATH : string;
  LB_REQUEST_CLIENT_ID : string;
  LB_REQUEST_TYPE : string;
  LB_REQUEST_FORMAT : string;
  LB_REQUEST_NAVIGATION : string;
  LB_REQUEST_WEBHOOK_VERB : string
}.

(* ================================================================== *)
(** ** The monad of effects *)

Definition M (A : Type) : Type := world -> outcome A * world.

Definition ret {A} (a : A) : M A := fun w => (Ret a, w).

Definition raise {A} (e : exn) : M A := fun w => (Raise e, w).

Definition lift {A} (o : outcome A) : M A := fun w => (o, w).

Definition bind {A B} (m : M A) (k : A -> M B) : M B :=
  fun w =>
    match m w with
    | (Ret a, w') => k a w'
    | (Raise e, w') => (Raise e, w')
    end.

(** [try: m  except ...: h e]; the handler re-raises what no clause
    matches. *)
Definition try_except {A} (m : M A) (h : exn -> M A) : M A :=
  fun w =>
    match m w with
    | (Ret a, w') => (Ret a, w')
    | (Raise e, w') => h e w'
    end.

Definition emit (e : event) : M unit :=
  fun w => (Ret tt, mkWorld (w_file w) (w_writable w) (w_trace w ++ [e])).

Declare Scope py_scope.
Delimit Scope py_scope with py.
Notation "x <- m ;; k" := (bind m (fun x => k))
  (at level 61, m at next level, right associativity) : py_scope.
Notation "m ;;; k" := (bind m (fun _ => k))
  (at level 61, right associativity) : py_scope.
Open Scope py_scope.

(** [for x in xs: body], threading the loop-carried variables. *)
Fixpoint for_each {A S} (body : S -> A -> M S) (xs : list A) (s : S) : M S :=
  match xs with
  | [] => ret s
  | x :: xs' => s' <- body s x ;; for_each body xs' s'
  end.

(** The three counters of [main]. *)
Record tally : Type := mkTally {
  success_count : nat;
  fail_count : nat;
  skip_count : nat
}.

(** The client objects; what matters of them is that they exist. *)
Record LearningBoxClient : Type := mkLearningBoxClient {
  lb_base_url : string;
  lb_api_key : option string
}.

Record RiseUpClient : Type := mkRiseUpClient {
  base_url : string;
  public_key : option string;
  private_key : option string;
  creator_user_id : Z
}.

(** The Flask request and the [(jsonify({status, message}), code)] pair the
    handler returns. *)
Record request : Type := mkRequest {
  content_type : option string;
  data : string
}.

Record response : Type := mkResponse {
  status : string;
  message : string;
  status_code : nat
}.

Definition opt_truthy (o : option string) : bool :=
  match o with
  | Some (String _ _) => true
  | _ => false
  end.

Definition bytes_truthy (b : list byte) : bool :=
  match b with [] => false | _ => true end.

Definition str_truthy (s : string) : bool :=
  match s with EmptyString => false | _ => true end.

Definition is_none (v : pyval) : bool :=
  match v with PyNone => true | _ => false end.

Definition is_dict (v : pyval) : bool :=
  match v with PyDict _ => true | _ => false end.

(** [parsed_data.get(k)] on the dict [parse_qs] returns. *)
Fixpoint qs_get (d : list (string * list string)) (k : string) : option (list string) :=
  match d with
  | [] => None
  | (k', v) :: d' => if String.eqb k' k then Some v else qs_get d' k
  end.

(** [not l] for the result of [parsed_data.get]. *)
Definition qs_falsy (o : option (list string)) : bool :=
  match o with
  | Some (_ :: _) => false
  | _ => true
  end.

Section Model.

Variable L : pylib.
Variable E : remote.
Variable C : config.

(** [str(v)] *)
Definition py_str (v : pyval) : string :=
  match v with
  | PyNone => "None"
  | PyBool true => "True"
  | PyBool false => "False"
  | PyInt z => str_of_int z
  | PyStr s => s
  | PyList _ | PyDict _ => repr_container L v
  end.

(** [int(v)] *)
Definition py_int (v : pyval) : outcome Z :=
  match v with
  | PyBool b => Ret (if b then 1%Z else 0%Z)
  | PyInt z => Ret z
  | PyStr s => match int_of_str L s with Some z => Ret z | None => Raise ValueError end
  | _ => Raise TypeError
  end.

(* ------------------------------------------------------------------ *)
(** *** mapping_store.py *)

Definition os_path_exists : M bool :=
  fun w => (Ret (match w_file w with Missing => false | _ => true end), w).

(** [with open(path, 'r') as f: return json.load(f)] *)
Definition open_r_json_load : M pyval :=
  fun w =>
    (match w_file w with
     | Missing | Unreadable => Raise IOError
     | Garbled => Raise JSONDecodeError
     | Refused c => Raise (load_exn c)
     | Stored v => Ret v
     end, w).

Definition load_mapping : M pyval :=
  present <- os_path_exists ;;
  if negb present then ret (PyDict [])
  else
    try_except open_r_json_load
      (fun e =>
         if isinstance e JSONDecodeError then ret (PyDict [])
         else if isinstance e IOError then ret (PyDict [])
         else raise e).

(** [with open(path, 'w') as f: json.dump(mapping_data, f, indent=4)].
    A write that goes through replaces the whole content; what is read
    back is the value that was dumped.  A write that does not go through
    raises [IOError], from [open] or later.  [open(.., 'w')] truncates the
    file: once it has succeeded the former content is gone, and what a
    failed [json.dump] leaves is empty or a prefix of the text, which
    [json.load] rejects. *)
Definition open_w_json_dump (mapping_data : pyval) : M unit :=
  fun w =>
    if w_writable w
    then (Ret tt,
          mkWorld (match w_file w with
                   | Unreadable => Unreadable
                   | _ => Stored mapping_data
                   end)
                  true (w_trace w ++ [FileWrite mapping_data true]))
    else if write_fails_at_open L (w_trace w)
    then (Raise IOError,
          mkWorld (w_file w) false (w_trace w ++ [FileWrite mapping_data false]))
    else (Raise IOError,
          mkWorld (match w_file w with
                   | Unreadable => Unreadable
                   | _ => Garbled
                   end)
                  false (w_trace w ++ [FileWrite mapping_data false])).

Definition save_mapping (mapping_data : pyval) : M unit :=
  try_except (open_w_json_dump mapping_data)
    (fun e => if isinstance e IOError then ret tt else raise e).

Definition add_or_update_mapping (lb_course_id riseup_step_id : pyval) : M unit :=
  mapping <- load_mapping ;;
  mapping' <- lift (py_setitem mapping (py_str lb_course_id) riseup_step_id) ;;
  save_mapping mapping'.

Definition get_riseup_step_id (lb_course_id : pyval) : M pyval :=
  mapping <- load_mapping ;;
  lift (py_get mapping (py_str lb_course_id) PyNone).

(* ------------------------------------------------------------------ *)
(** *** config.py *)

Definition required_vars : list (string * bool) :=
  [ ("RISEUP_PUBLIC_KEY", opt_truthy (RISEUP_PUBLIC_KEY C));
    ("RISEUP_PRIVATE_KEY", opt_truthy (RISEUP_PRIVATE_KEY C));
    ("RISEUP_API_ENDPOINT", opt_truthy (RISEUP_API_ENDPOINT C));
    ("RISEUP_CREATOR_USER_ID", negb (Z.eqb (RISEUP_CREATOR_USER_ID C) 0));
    ("LEARNINGBOX_API_KEY", opt_truthy (LEARNINGBOX_API_KEY C));
    ("LEARNINGBOX_API_ENDPOINT", opt_truthy (LEARNINGBOX_API_ENDPOINT C));
    ("WEBHOOK_BASE_URL", opt_truthy (WEBHOOK_BASE_URL C)) ].

Definition validate_config : outcome unit :=
  let missing := map fst (filter (fun nv => negb (snd nv)) required_vars) in
  match missing with
  | [] => Ret tt
  | _ => Raise ValueError
  end.

Definition get_full_webhook_url : outcome string :=
  match WEBHOOK_BASE_URL C with
  | Some (String c s) => Ret (rstrip_slash (String c s) ++ WEBHOOK_PATH C)
  | _ => Raise ValueError
  end.

(* ------------------------------------------------------------------ *)
(** *** learningbox_client.py *)

Definition LearningBoxClient_init : outcome LearningBoxClient :=
  match LEARNINGBOX_API_ENDPOINT C with
  | Some u => Ret (mkLearningBoxClient (rstrip_slash u) (LEARNINGBOX_API_KEY C))
  | None => Raise AttributeError
  end.

(** [self._make_request(method, endpoint, json=...)]: the HTTP exchange. *)
Definition lb_make_request (method endpoint : string) (json : option pyval) : M pyval :=
  fun w =>
    let r := learningbox E (w_trace w) method endpoint json in
    (r, mkWorld (w_file w) (w_writable w)
                (w_trace w ++ [LearningBox method endpoint json r])).

Definition get_catalog (self : LearningBoxClient) : M pyval :=
  response_data <- lb_make_request "GET" "/learningbox/list" None ;;
  ok <- (if py_truthy response_data
         then st <- lift (py_get response_data "status" PyNone) ;; ret (is_str "ok" st)
         else ret false) ;;
  if ok : bool then
    courses <- lift (py_get response_data "modules" (PyList [])) ;;
    _ <- lift (py_len courses) ;;
    ret courses
  else ret (PyList []).

(** The [payload] dict of [request_scorm_export], [id] being [int(course_id)]. *)
Definition export_payload (id : Z) (webhook_url : string) : pyval :=
  PyDict [ ("id", PyInt id);
           ("client_id", PyStr (LB_REQUEST_CLIENT_ID C));
           ("type", PyStr (LB_REQUEST_TYPE C));
           ("format", PyStr (LB_REQUEST_FORMAT C));
           ("navigation", PyStr (LB_REQUEST_NAVIGATION C));
           ("webhook_url", PyStr webhook_url);
           ("webhook_verb", PyStr (LB_REQUEST_WEBHOOK_VERB C)) ].

Definition request_scorm_export (self : LearningBoxClient)
    (course_id : pyval) (webhook_url : string) : M pyval :=
  id <- lift (py_int course_id) ;;
  let payload := export_payload id webhook_url in
  try_except
    (lb_make_request "POST" "/learningbox/request-by-id" (Some payload))
    (fun e => if isinstance e RequestException then ret PyNone else raise e).

(* ------------------------------------------------------------------ *)
(** *** riseup_client.py *)

Definition RiseUpClient_init : outcome RiseUpClient :=
  match RISEUP_API_ENDPOINT C with
  | Some u => Ret (mkRiseUpClient (rstrip_slash u) (RISEUP_PUBLIC_KEY C)
                                  (RISEUP_PRIVATE_KEY C) (RISEUP_CREATOR_USER_ID C))
  | None => Raise AttributeError
  end.

(** A method call on the client: asked, answered, recorded. *)
Definition call_riseup (self : RiseUpClient) (c : riseup_call) : M pyval :=
  fun w =>
    let r := riseup E (w_trace w) c in
    (r, mkWorld (w_file w) (w_writable w) (w_trace w ++ [RiseUp c r])).

(* ------------------------------------------------------------------ *)
(** *** sync_courses.py *)

(** [requests.get(url, ...)], [raise_for_status] and the choice of a file
    name: one exchange with the download host. *)
Definition http_get (url : pyval) : M (list byte * string) :=
  fun w =>
    let r := requests_get E (w_trace w) url in
    (r, mkWorld (w_file w) (w_writable w) (w_trace w ++ [Download url r])).

(** Returns [(content, filename)], or [(None, None)] rendered as [None]. *)
Definition download_content (url : pyval) : M (option (list byte * string)) :=
  if negb (py_truthy url) then ret None
  else
    try_except (r <- http_get url ;; ret (Some r))
      (fun e =>
         if isinstance e RequestException then ret None
         else if isinstance e Exception then ret None
         else raise e).

(** [[tag.get('name') for tag in lb_tags if tag.get('name')]] *)
Fixpoint tag_names (tags : list pyval) : outcome (list pyval) :=
  match tags with
  | [] => Ret []
  | tag :: tags' =>
      match py_get tag "name" PyNone with
      | Raise e => Raise e
      | Ret cond =>
          if py_truthy cond then
            match py_get tag "name" PyNone with
            | Raise e => Raise e
            | Ret n =>
                match tag_names tags' with
                | Raise e => Raise e
                | Ret ns => Ret (n :: ns)
                end
            end
          else tag_names tags'
      end
  end.

(** [if content and filename: try: upload(...) except ...: print(...)] *)
Definition upload_decoration (upload : list byte -> string -> riseup_call)
    (riseup_client : RiseUpClient) (d : option (list byte * string)) : M unit :=
  match d with
  | Some (content, filename) =>
      if bytes_truthy content && str_truthy filename then
        try_except (_ <- call_riseup riseup_client (upload content filename) ;; ret tt)
          (fun e =>
             if isinstance e RequestException || isinstance e ConnectionError then ret tt
             else if isinstance e Exception then ret tt
             else raise e)
      else ret tt
  | None => ret tt
  end.

(** [not x or 'id' not in x] *)
Definition lacks_id (x : pyval) : M bool :=
  if negb (py_truthy x) then ret true
  else b <- lift (py_contains "id" x) ;; ret (negb b).

(** The [try] block of [sync_course_structure]. *)
Definition build_hierarchy (riseup_client : RiseUpClient)
    (lb_title lb_desc lb_short_desc lb_duration lb_reference
     lb_image_url lb_banner_url : pyval) (lb_keywords : list pyval) : M pyval :=
  riseup_course <- call_riseup riseup_client
      (create_course lb_title lb_desc lb_short_desc lb_reference lb_duration
                     "fr-FR" lb_keywords) ;;
  no_course <- lacks_id riseup_course ;;
  if no_course : bool then ret PyNone else
  riseup_course_id <- lift (py_getitem riseup_course "id") ;;
  image <- download_content lb_image_url ;;
  upload_decoration (upload_course_image riseup_course_id) riseup_client image ;;;
  banner <- download_content lb_banner_url ;;
  upload_decoration (upload_course_banner riseup_course_id) riseup_client banner ;;;
  riseup_module <- call_riseup riseup_client
      (create_module riseup_course_id "Module 1"
                     (py_str lb_reference ++ "_M1") lb_duration) ;;
  no_module <- lacks_id riseup_module ;;
  if no_module : bool then ret PyNone else
  riseup_module_id <- lift (py_getitem riseup_module "id") ;;
  riseup_step <- call_riseup riseup_client
      (create_scorm_step riseup_module_id "Contenu"
                         (py_str lb_reference ++ "_M1_S1")) ;;
  no_step <- lacks_id riseup_step ;;
  if no_step : bool then ret PyNone else
  riseup_step_id <- lift (py_getitem riseup_step "id") ;;
  ret riseup_step_id.

Definition sync_course_structure (lb_course : pyval) (riseup_client : RiseUpClient)
    : M pyval :=
  lb_id <- lift (py_get lb_course "id" PyNone) ;;
  lb_title <- lift (py_get lb_course "name"
                      (PyStr ("LearningBox Course " ++ py_str lb_id))) ;;
  lb_desc <- lift (py_get lb_course "description" (PyStr "")) ;;
  lb_short_desc <- lift (py_get lb_course "short_description" (PyStr "")) ;;
  lb_duration <- lift (py_get lb_course "duration" (PyInt 0)) ;;
  lb_reference <- lift (py_get lb_course "code" (PyStr ("LB_" ++ py_str lb_id))) ;;
  lb_image_url <- lift (py_get lb_course "image" PyNone) ;;
  lb_banner_url <- lift (py_get lb_course "banner" PyNone) ;;
  lb_tags <- lift (py_get lb_course "tags" (PyList [])) ;;
  tags <- lift (py_iter lb_tags) ;;
  lb_keywords <- lift (tag_names tags) ;;
  try_except
    (build_hierarchy riseup_client lb_title lb_desc lb_short_desc lb_duration
                     lb_reference lb_image_url lb_banner_url lb_keywords)
    (fun e =>
       if isinstance e RequestException || isinstance e ConnectionError then ret PyNone
       else if isinstance e Exception then ret PyNone
       else raise e).

(** The body of [for lb_course in lb_catalog:] in [main]; the counters are
    the loop-carried state. *)
Definition main_loop_body (lb_client : LearningBoxClient) (riseup_client : RiseUpClient)
    (webhook_url : string) (existing_mapping : pyval)
    (t : tally) (lb_course : pyval) : M tally :=
  lb_id <- lift (py_get lb_course "id" PyNone) ;;
  if negb (py_truthy lb_id) then
    ret (mkTally (success_count t) (fail_count t + 1) (skip_count t))
  else
    mapped <- lift (py_contains (py_str lb_id) existing_mapping) ;;
    if mapped : bool then
      ret (mkTally (success_count t) (fail_count t) (skip_count t + 1))
    else
      riseup_step_id <- sync_course_structure lb_course riseup_client ;;
      if py_truthy riseup_step_id then
        add_or_update_mapping lb_id riseup_step_id ;;;
        export_result <- request_scorm_export lb_client lb_id webhook_url ;;
        if negb (is_none export_result) then
          ret (mkTally (success_count t + 1) (fail_count t) (skip_count t))
        else
          ret (mkTally (success_count t) (fail_count t + 1) (skip_count t))
      else
        ret (mkTally (success_count t) (fail_count t + 1) (skip_count t)).

(** The [try] block that opens [main]. *)
Definition main_init : M (option (LearningBoxClient * RiseUpClient * string)) :=
  try_except
    (_ <- lift validate_config ;;
     lb_client <- lift LearningBoxClient_init ;;
     riseup_client <- lift RiseUpClient_init ;;
     webhook_url <- lift get_full_webhook_url ;;
     ret (Some (lb_client, riseup_client, webhook_url)))
    (fun e =>
       if isinstance e ValueError || isinstance e RequestException
          || isinstance e ConnectionError
       then emit (Print InitializationError) ;;; ret None
       else raise e).

Definition main : M unit :=
  init <- main_init ;;
  match init with
  | None => ret tt
  | Some (lb_client, riseup_client, webhook_url) =>
      existing_mapping <- load_mapping ;;
      _ <- lift (py_len existing_mapping) ;;
      lb_catalog <- get_catalog lb_client ;;
      if negb (py_truthy lb_catalog) then emit (Print NoCoursesFound)
      else
        _ <- lift (py_len lb_catalog) ;;
        courses <- lift (py_iter lb_catalog) ;;
        t <- for_each (main_loop_body lb_client riseup_client webhook_url existing_mapping)
                      courses (mkTally 0 0 0) ;;
        emit (Print (SyncProcessComplete (success_count t) (skip_count t) (fail_count t)))
  end.

(* ------------------------------------------------------------------ *)
(** *** webhook_handler.py *)

(** The module-level [try: config.validate_config(); riseup_client =
    RiseUpClient()  except ValueError: riseup_client = None]. *)
Definition webhook_riseup_client : outcome (option RiseUpClient) :=
  match validate_config with
  | Ret _ =>
      match RiseUpClient_init with
      | Ret c => Ret (Some c)
      | Raise e => if isinstance e ValueError then Ret None else Raise e
      end
  | Raise e => if isinstance e ValueError then Ret None else Raise e
  end.

(** [base64.b64decode(s)], recorded. *)
Definition base64_b64decode (s : string) : M (list byte) :=
  emit (B64Decode s) ;;; lift (b64decode L s).

(** Everything inside the outer [try] of the handler. *)
Definition webhook_pipeline (riseup_client : RiseUpClient) (req : request) : M response :=
  parsed_data <- lift (parse_qs L (data req)) ;;
  let lb_course_id_list := qs_get parsed_data "modules[0][id]" in
  let scorm_zip_b64_list := qs_get parsed_data "modules[0][zip]" in
  if qs_falsy lb_course_id_list || qs_falsy scorm_zip_b64_list then
    ret (mkResponse "error" "Missing required data fields" 400)
  else
    match lb_course_id_list, scorm_zip_b64_list with
    | Some (lb_course_id :: _), Some (scorm_zip_b64 :: _) =>
        riseup_step_id <- get_riseup_step_id (PyStr lb_course_id) ;;
        if negb (py_truthy riseup_step_id) then
          ret (mkResponse "acknowledged_error" "Mapping not found" 200)
        else
          decoded <- try_except
                       (b <- base64_b64decode scorm_zip_b64 ;; ret (Some b))
                       (fun e => if isinstance e binascii_Error then ret None
                                 else raise e) ;;
          match decoded with
          | None => ret (mkResponse "error" "Invalid Base64 data" 400)
          | Some scorm_zip_bytes =>
              let filename := "lb_" ++ lb_course_id ++ "_scorm.zip" in
              try_except
                (_ <- call_riseup riseup_client
                        (upload_scorm_content riseup_step_id scorm_zip_bytes filename) ;;
                 ret (mkResponse "success" "SCORM uploaded to RiseUp" 200))
                (fun e =>
                   if isinstance e RequestException || isinstance e ConnectionError
                   then ret (mkResponse "error" "Failed to upload SCORM to RiseUp" 502)
                   else raise e)
          end
    | _, _ => ret (mkResponse "error" "Missing required data fields" 400)
    end.

Definition handle_learningbox_webhook (riseup_client : option RiseUpClient)
    (req : request) : M response :=
  match riseup_client with
  | None => ret (mkResponse "error" "Server configuration error" 500)
  | Some client =>
      try_except (webhook_pipeline client req)
        (fun e =>
           if isinstance e Exception
           then ret (mkResponse "error" "Internal server error" 500)
           else raise e)
  end.

End Model.

(* ================================================================== *)
(** ** Stand-ins used by the worked examples

    The general results below hold for every [pylib] and every [remote].
    The examples need concrete ones: a decimal [int()], a [parse_qs] for
    bodies without escapes, a base64 decoder for the standard alphabet, and
    remote systems that answer from a script. *)

Definition digit_of (c : ascii) : option Z :=
  let n := Z.of_N (N_of_ascii c) in
  if Z.leb 48 n && Z.leb n 57 then Some (n - 48)%Z else None.

Fixpoint digits_value (s : string) (acc : Z) : option Z :=
  match s with
  | EmptyString => Some acc
  | String c s' =>
      match digit_of c with
      | Some d => digits_value s' (10 * acc + d)%Z
      | None => None
      end
  end.

Definition plain_int_of_str (s : string) : option Z :=
  match s with
  | EmptyString => None
  | String "-" (String c r) => option_map Z.opp (digits_value (String c r) 0)
  | String "+" (String c r) => digits_value (String c r) 0
  | _ => digits_value s 0
  end.

Fixpoint split_amp (s : string) : list string :=
  match s with
  | EmptyString => [EmptyString]
  | String c s' =>
      if Ascii.eqb c "&" then EmptyString :: split_amp s'
      else match split_amp s' with
           | h :: t => String c h :: t
           | [] => [String c EmptyString]
           end
  end.

(** [name, _, value = piece.partition('=')]; [None] when there is no ['=']. *)
Fixpoint partition_eq (s : string) : option (string * string) :=
  match s with
  | EmptyString => None
  | String c s' =>
      if Ascii.eqb c "=" then Some (EmptyString, s')
      else match partition_eq s' with
           | Some (n, v) => Some (String c n, v)
           | None => None
           end
  end.

Fixpoint qs_add (d : list (string * list string)) (k v : string)
    : list (string * list string) :=
  match d with
  | [] => [(k, [v])]
  | (k', vs) :: d' =>
      if String.eqb k' k then (k', (vs ++ [v])%list) :: d' else (k', vs) :: qs_add d' k v
  end.

Definition plain_parse_qs (s : string) : outcome (list (string * list string)) :=
  Ret (fold_left
         (fun d piece =>
            match partition_eq piece with
            | Some (n, String c v) => qs_add d n (String c v)
            | _ => d
            end)
         (split_amp s) []).

Definition b64_value (c : ascii) : option N :=
  let n := N_of_ascii c in
  if N.leb 65 n && N.leb n 90 then Some (n - 65)%N
  else if N.leb 97 n && N.leb n 122 then Some (n - 71)%N
  else if N.leb 48 n && N.leb n 57 then Some (n + 4)%N
  else if N.eqb n 43 then Some 62%N
  else if N.eqb n 47 then Some 63%N
  else None.

Definition byte_of (n : N) : list byte :=
  match Byte.of_N (N.modulo n 256) with Some b => [b] | None => [] end.

(** Base64 as RFC 4648 has it: groups of four characters of the alphabet,
    the last group ending in one or two ['='] when the data stops short. *)
Definition in_alphabet (c : ascii) : bool :=
  match b64_value c with Some _ => true | None => false end.

Fixpoint valid_base64 (s : string) : bool :=
  match s with
  | EmptyString => true
  | String a (String b (String c (String d rest))) =>
      in_alphabet a && in_alphabet b &&
      (if in_alphabet c
       then if in_alphabet d then valid_base64 rest
            else Ascii.eqb d "=" && String.eqb rest EmptyString
       else Ascii.eqb c "=" && Ascii.eqb d "=" && String.eqb rest EmptyString)
  | _ => false
  end.

(** A decoder that takes valid base64 and nothing else: what
    [base64.b64decode(s, validate=True)] does. *)
Fixpoint b64_quads (s : string) : outcome (list byte) :=
  match s with
  | EmptyString => Ret []
  | String a (String b (String c (String d rest))) =>
      match b64_value a, b64_value b with
      | Some x, Some y =>
          let first := byte_of (x * 4 + y / 16) in
          match b64_value c, b64_value d, rest with
          | Some z, Some t, _ =>
              match b64_quads rest with
              | Ret tl => Ret (first ++ byte_of (y * 16 + z / 4) ++ byte_of (z * 64 + t) ++ tl)%list
              | Raise e => Raise e
              end
          | Some z, None, EmptyString =>
              if Ascii.eqb d "=" then Ret (first ++ byte_of (y * 16 + z / 4))%list
              else Raise binascii_Error
          | None, None, EmptyString =>
              if Ascii.eqb c "=" && Ascii.eqb d "=" then Ret first
              else Raise binascii_Error
          | _, _, _ => Raise binascii_Error
          end
      | _, _ => Raise binascii_Error
      end
  | _ => Raise binascii_Error
  end.

(** [base64.b64decode(s)] as the handler calls it, with [validate] left at
    its default [False]: the loop of [binascii.a2b_base64] without strict
    mode.  A character outside the alphabet is skipped; a ['='] ends the
    input when it completes a group of four, and is skipped otherwise; the
    input is refused, with [binascii.Error], only when it ends inside a
    group.  [quad_pos] is the position in the group, [leftchar] the bits of
    the last character still to be emitted, [pads] the ['='] seen in a row. *)
Fixpoint a2b_base64 (s : string) (quad_pos : nat) (leftchar : N) (pads : nat)
    (bin_data : list byte) : outcome (list byte) :=
  match s with
  | EmptyString =>
      if Nat.eqb quad_pos 0 then Ret bin_data else Raise binascii_Error
  | String this_ch rest =>
      if Ascii.eqb this_ch "=" then
        if Nat.leb 2 quad_pos then
          if Nat.leb 4 (quad_pos + (pads + 1)) then Ret bin_data
          else a2b_base64 rest quad_pos leftchar (pads + 1) bin_data
        else a2b_base64 rest quad_pos leftchar pads bin_data
      else
        match b64_value this_ch with
        | None => a2b_base64 rest quad_pos leftchar pads bin_data
        | Some v =>
            match quad_pos with
            | 0 => a2b_base64 rest 1 v 0 bin_data
            | 1 => a2b_base64 rest 2 (N.modulo v 16) 0
                     (bin_data ++ byte_of (leftchar * 4 + v / 16))%list
            | 2 => a2b_base64 rest 3 (N.modulo v 4) 0
                     (bin_data ++ byte_of (leftchar * 16 + v / 4))%list
            | _ => a2b_base64 rest 0 0%N 0
                     (bin_data ++ byte_of (leftchar * 64 + v))%list
            end
        end
  end.

(** A [str] argument is first encoded as ASCII, which fails with a
    [ValueError] on any other character. *)
Definition lenient_b64decode (s : string) : outcome (list byte) :=
  if forallb (fun c => N.ltb (N_of_ascii c) 128) (list_ascii_of_string s)
  then a2b_base64 s 0 0%N 0 []
  else Raise ValueError.

Definition lenient_lib : pylib :=
  mkPylib (fun _ => "<container>") plain_int_of_str plain_parse_qs lenient_b64decode
          (fun _ => true).

(** A library under which a write that fails does so after [open] has
    truncated the file. *)
Definition cutting_lib : pylib :=
  mkPylib (fun _ => "<container>") plain_int_of_str plain_parse_qs b64_quads
          (fun _ => false).

Definition plain_lib : pylib :=
  mkPylib (fun _ => "<container>") plain_int_of_str plain_parse_qs b64_quads
          (fun _ => true).

(** The three creation calls answer with a fresh id, the SCORM upload with
    [upload], the decorations with nothing. *)
Definition scripted_riseup (upload : outcome pyval)
    (tr : list event) (c : riseup_call) : outcome pyval :=
  match c with
  | create_course _ _ _ _ _ _ _
  | create_module _ _ _ _
  | create_scorm_step _ _ _ =>
      Ret (PyDict [("id", PyInt (Z.of_nat (100 + List.length tr)))])
  | upload_scorm_content _ _ _ => upload
  | _ => Ret PyNone
  end.

Definition scripted_remote (catalog : pyval) (export upload : outcome pyval) : remote :=
  mkRemote
    (scripted_riseup upload)
    (fun _ method _ _ =>
       if String.eqb method "GET"
       then Ret (PyDict [("status", PyStr "ok"); ("modules", catalog)])
       else export)
    (fun _ _ => Raise RequestException).

Definition sample_config : config :=
  mkConfig (Some "pk") (Some "sk") (Some "https://riseup.example/api/") 7
           (Some "lbkey") (Some "https://lb.example/") (Some "https://hook.example/")
           "/learningbox_webhook" "001" "light" "scorm2004" "free" "POST".

Definition sample_lb_client : LearningBoxClient :=
  mkLearningBoxClient "https://lb.example" (Some "lbkey").

Definition sample_riseup_client : RiseUpClient :=
  mkRiseUpClient "https://riseup.example/api" (Some "pk") (Some "sk") 7.

Definition sample_webhook_url : string := "https://hook.example/learningbox_webhook".

Definition fresh_world : world := mkWorld Missing true [].

(** The store can serve an upsert followed by a lookup: the file can be
    written, and what is there now is nothing, something [json] rejects, or
    an object. *)
Definition store_in_service (w : world) : Prop :=
  w_writable w = true /\
  match w_file w with
  | Missing | Garbled | Stored (PyDict _) => True
  | _ => False
  end.

(** No write is cut short after [open] has truncated the file: the writes
    go through, or the ones that fail do so at [open]. *)
Definition writes_are_whole (L : pylib) (w : world) : Prop :=
  w_writable w = true \/ forall tr, write_fails_at_open L tr = true.

(** The file holds an object with the value [v] under [k], and no write
    will be cut short. *)
Definition holds_value (L : pylib) (k : string) (v : pyval) (w : world) : Prop :=
  writes_are_whole L w /\
  exists m, w_file w = Stored (PyDict m) /\ dict_get m k = Some v.

(** A computation that leaves the mapping file alone. *)
Definition frames_file {A} (m : M A) : Prop :=
  forall w, w_file (snd (m w)) = w_file w /\ w_writable (snd (m w)) = w_writable w.

(** The file holds an object with an entry under [k]. *)
Definition has_entry (k : string) (w : world) : Prop :=
  exists m, w_file w = Stored (PyDict m) /\ dict_has m k = true.

Definition is_upload (e : event) : bool :=
  match e with
  | RiseUp (upload_scorm_content _ _ _) _ => true
  | _ => false
  end.

Definition is_creation (e : event) : bool :=
  match e with
  | RiseUp (create_course _ _ _ _ _ _ _) _
  | RiseUp (create_module _ _ _ _) _
  | RiseUp (create_scorm_step _ _ _) _ => true
  | _ => false
  end.

Definition is_decode (e : event) : bool :=
  match e with B64Decode _ => true | _ => false end.


Definition is_tally (e : event) : bool :=
  match e with Print (SyncProcessComplete _ _ _) => true | _ => false end.

(** The request carries both fields; [id] and [zip] are their first values. *)
Definition well_formed (L : pylib) (req : request) (id zip : string) : Prop :=
  exists parsed ids zips,
    parse_qs L (data req) = Ret parsed /\
    qs_get parsed "modules[0][id]" = Some (id :: ids) /\
    qs_get parsed "modules[0][zip]" = Some (zip :: zips).

(** Data of the worked examples. *)
Definition export_ok : outcome pyval := Ret (PyDict [("status", PyStr "ok")]).

Definition intro_fields : pydict := [("id", PyInt 7); ("name", PyStr "Intro")].

Definition two_courses : pyval :=
  PyList [PyDict intro_fields; PyDict [("id", PyInt 8); ("name", PyStr "Next")]].

Definition same_course_twice : pyval :=
  PyList [PyDict intro_fields; PyDict intro_fields].

Definition null_tags_catalog : pyval :=
  PyList [PyDict [("id", PyInt 7); ("name", PyStr "Intro"); ("tags", PyNone)];
          PyDict [("id", PyInt 8); ("name", PyStr "Next")]].

Definition textual_id_catalog : pyval :=
  PyList [PyDict [("id", PyStr "LB-7"); ("name", PyStr "Intro")];
          PyDict [("id", PyInt 8); ("name", PyStr "Next")]].

Definition zero_fields : pydict := [("id", PyInt 0); ("name", PyStr "Zero")].


Definition sample_request : request :=
  mkRequest (Some "application/x-www-form-urlencoded")
            "modules[0][id]=42&modules[0][zip]=aGk=".

(** ["aGVsbG8="], the base64 text of the word hello, with a ['!'] put in the
    middle. *)
Definition stray_payload : string := "aGVs!bG8=".

Definition stray_request : request :=
  mkRequest (Some "application/x-www-form-urlencoded")
            "modules[0][id]=42&modules[0][zip]=aGVs!bG8=".

Definition hello_bytes : list byte :=
  ["h"%byte; "e"%byte; "l"%byte; "l"%byte; "o"%byte].

Definition truncated_request : request :=
  mkRequest (Some "application/x-www-form-urlencoded")
            "modules[0][id]=42&modules[0][zip]=aGk".

Definition mapped_world : world :=
  mkWorld (Stored (PyDict [("42", PyInt 999)])) true [].

Definition zero_step_world : world :=
  mkWorld (Stored (PyDict [("42", PyInt 0)])) true [].

Definition empty_step_world : world :=
  mkWorld (Stored (PyDict [("42", PyStr "")])) true [].

Definition list_world : world := mkWorld (Stored (PyList [])) true [].

(** [s.endswith('/')] *)
Fixpoint ends_with_slash (s : string) : bool :=
  match s with
  | EmptyString => false
  | String c EmptyString => Ascii.eqb c "/"
  | String _ s' => ends_with_slash s'
  end.

(** ['/' * n] *)
Fixpoint slashes (n : nat) : string :=
  match n with
  | O => EmptyString
  | S n' => String "/" (slashes n')
  end.

(** The condition [validate_config] puts on the configuration. *)
Definition config_complete (C : config) : bool :=
  opt_truthy (RISEUP_PUBLIC_KEY C) && opt_truthy (RISEUP_PRIVATE_KEY C)
  && opt_truthy (RISEUP_API_ENDPOINT C)
  && negb (Z.eqb (RISEUP_CREATOR_USER_ID C) 0)
  && opt_truthy (LEARNINGBOX_API_KEY C) && opt_truthy (LEARNINGBOX_API_ENDPOINT C)
  && opt_truthy (WEBHOOK_BASE_URL C).

Definition with_event (w : world) (e : event) : world :=
  mkWorld (w_file w) (w_writable w) (w_trace w ++ [e]).





(** A Target LMS that answers every call with a connection failure. *)
Definition unreachable_remote : remote :=
  mkRemote (fun _ _ => Raise ConnectionError)
           (fun _ _ _ _ => Raise RequestException)
           (fun _ _ => Raise RequestException).


(** What one webhook request may add to the trace: nothing, one decode, or
    one decode followed by one SCORM upload. *)
Definition webhook_events (new : list event) : Prop :=
  new = [] \/
  (exists zip, new = [B64Decode zip]) \/
  (exists zip step_id file_content filename r,
      new = [B64Decode zip;
             RiseUp (upload_scorm_content step_id file_content filename) r]).

(** The effects of a webhook computation that started in [w] stay within
    bounds: the mapping file is as it was, the trace grew by
    [webhook_events], and a response carries one of the [codes]. *)
Definition within_envelope (w : world) (codes : list nat)
    (p : outcome response * world) : Prop :=
  w_file (snd p) = w_file w /\
  w_writable (snd p) = w_writable w /\
  (exists new, w_trace (snd p) = (w_trace w ++ new)%list /\ webhook_events new) /\
  match fst p with
  | Ret resp => In (status_code resp) codes
  | Raise _ => True
  end.

Definition no_fields_request : request :=
  mkRequest (Some "application/x-www-form-urlencoded") "modules[0][id]=42".

Definition incomplete_config : config :=
  mkConfig (Some "pk") (Some "sk") (Some "https://riseup.example/api/") 0
           (Some "lbkey") (Some "https://lb.example/") (Some "https://hook.example/")
           "/learningbox_webhook" "001" "light" "scorm2004" "free" "POST".

(** A decoder that refuses text outside ASCII the way [base64.b64decode]
    does, with a [ValueError], and otherwise decodes as [b64_quads]. *)
Definition ascii_only_b64decode (s : string) : outcome (list byte) :=
  if forallb (fun c => N.ltb (N_of_ascii c) 128) (list_ascii_of_string s)
  then b64_quads s
  else Raise ValueError.

Definition strict_lib : pylib :=
  mkPylib (fun _ => "<container>") plain_int_of_str plain_parse_qs ascii_only_b64decode
          (fun _ => true).

(** The header dict [LearningBoxClient._make_request] sends: the caller's
    [headers], updated with the API key header, [Accept] set if absent, and
    [Content-Type] added for the JSON body of a POST or a PUT when the caller
    gave none. *)
Definition lb_request_headers (self : LearningBoxClient) (method : string)
    (has_json : bool) (headers : pydict) : pydict :=
  let headers :=
    dict_set headers "X-Gravitee-Api-Key"
             (match lb_api_key self with Some k => PyStr k | None => PyNone end) in
  let headers :=
    if dict_has headers "Accept" then headers
    else dict_set headers "Accept" (PyStr "application/json") in
  if (String.eqb method "POST" || String.eqb method "PUT") && has_json
     && negb (dict_has headers "Content-Type")
  then dict_set headers "Content-Type" (PyStr "application/json")
  else headers.

(** A Source LMS that answers the catalog request with an error status. *)
Definition refusing_remote : remote :=
  mkRemote (scripted_riseup (Ret PyNone))
           (fun _ _ _ _ => Ret (PyDict [("status", PyStr "error")]))
           (fun _ _ => Raise RequestException).

Definition readonly_world : world :=
  mkWorld (Stored (PyDict [("42", PyInt 999)])) false [].

Definition latin_request : request :=
  mkRequest (Some "application/x-www-form-urlencoded")
            ("modules[0][id]=42&modules[0][zip]="
             ++ String (Ascii.ascii_of_nat 233) EmptyString).

(* ================================================================== *)
(** * Properties *)

Open Scope list_scope.

(** Every exception of the model is an [Exception]. *)
Lemma isinstance_Exception (e : exn) : isinstance e Exception = true.
Proof. destruct e; reflexivity. Qed.

(** ** The mapping store *)

Section MappingStore.

Variable L : pylib.

Lemma load_mapping_eq (w : world) :
  load_mapping w =
  (match w_file w with
   | Stored v => Ret v
   | Refused c => Raise (load_exn c)
   | _ => Ret (PyDict [])
   end, w).
Proof.
  destruct w as [f wr tr]; destruct f as [| | |c|v]; try reflexivity.
  destruct c; reflexivity.
Qed.

Lemma load_mapping_world (w : world) : exists o, load_mapping w = (o, w).
Proof. rewrite load_mapping_eq. eexists; reflexivity. Qed.

(** A file that [json.load] reads or rejects with a [JSONDecodeError]. *)
Lemma load_mapping_loads (w : world) :
  (forall c, w_file w <> Refused c) ->
  load_mapping w =
  (Ret (match w_file w with Stored v => v | _ => PyDict [] end), w).
Proof.
  intros Hc. rewrite load_mapping_eq.
  destruct (w_file w) as [| | |c|v]; try reflexivity.
  now destruct (Hc c).
Qed.

Lemma dict_get_set_same (d : pydict) (k : string) (v : pyval) :
  dict_get (dict_set d k v) k = Some v.
Proof.
  induction d as [|[k' v'] d IH]; simpl.
  - now rewrite String.eqb_refl.
  - destruct (String.eqb k' k) eqn:Hk; simpl; rewrite Hk; auto.
Qed.


(** The file after a successful upsert into a store in service. *)
Lemma add_or_update_mapping_in_service (a y : pyval) (w : world) :
  store_in_service w ->
  add_or_update_mapping L a y w =
  (Ret tt,
   let m := dict_set (match w_file w with Stored (PyDict d) => d | _ => [] end)
                     (py_str L a) y in
   mkWorld (Stored (PyDict m)) true (w_trace w ++ [FileWrite (PyDict m) true])).
Proof.
  intros [Hw Hf]. unfold add_or_update_mapping, bind. rewrite load_mapping_eq.
  destruct w as [f wr tr]; simpl in *; subst wr.
  destruct f as [| | |c|v]; try contradiction; try reflexivity.
  destruct v; try contradiction. reflexivity.
Qed.

(** C1. For every course id [z] and step id [y], on a store in service,
    [add_or_update_mapping] followed by [get_riseup_step_id] returns [y],
    whether each of the two calls receives the id as the integer [z] or as
    its decimal string: both calls go through [str]. *)
Theorem upsert_then_get (z : Z) (y a b : pyval) (w : world) :
  store_in_service w ->
  In a [PyInt z; PyStr (str_of_int z)] ->
  In b [PyInt z; PyStr (str_of_int z)] ->
  exists w',
    (add_or_update_mapping L a y ;;; get_riseup_step_id L b) w = (Ret y, w') /\
    has_entry (str_of_int z) w'.
Proof.
  intros Hs Ha Hb.
  assert (Hka : py_str L a = str_of_int z).
  { destruct Ha as [<-|[<-|[]]]; reflexivity. }
  assert (Hkb : py_str L b = str_of_int z).
  { destruct Hb as [<-|[<-|[]]]; reflexivity. }
  unfold bind at 1. rewrite (add_or_update_mapping_in_service a y w Hs).
  cbv zeta. unfold get_riseup_step_id, bind. rewrite load_mapping_eq.
  cbn [w_file lift py_get]. rewrite Hka, Hkb, dict_get_set_same.
  eexists; split; [reflexivity|].
  eexists; split; [reflexivity|].
  unfold dict_has. now rewrite dict_get_set_same.
Qed.

(** The fallback of [load_mapping]: an empty dict when the file is missing,
    cannot be opened, or holds text that [json] rejects with a
    [JSONDecodeError], and the stored value when the file parses.  The world
    is left as it was. *)
Lemma load_mapping_fallback :
  (forall wr tr, load_mapping (mkWorld Missing wr tr)
                 = (Ret (PyDict []), mkWorld Missing wr tr)) /\
  (forall wr tr, load_mapping (mkWorld Unreadable wr tr)
                 = (Ret (PyDict []), mkWorld Unreadable wr tr)) /\
  (forall wr tr, load_mapping (mkWorld Garbled wr tr)
                 = (Ret (PyDict []), mkWorld Garbled wr tr)) /\
  (forall v wr tr, load_mapping (mkWorld (Stored v) wr tr)
                   = (Ret v, mkWorld (Stored v) wr tr)).
Proof. repeat split. Qed.

(** C3. [load_mapping] does not return normally in every state of the
    mapping file.  Its two [except] clauses name [JSONDecodeError] and
    [IOError]; a failure of [json.load] of another class is neither, and
    leaves [load_mapping] as it was raised: a file whose bytes are not text
    in the default encoding makes [load_mapping] raise [UnicodeDecodeError].
    [load_mapping] returns normally, and leaves the world as it was, in
    every state of the file but these. *)
Theorem load_mapping_lets_decoding_errors_escape :
  (forall c wr tr,
      isinstance (load_exn c) JSONDecodeError = false /\
      isinstance (load_exn c) IOError = false /\
      load_mapping (mkWorld (Refused c) wr tr)
      = (Raise (load_exn c), mkWorld (Refused c) wr tr)) /\
  load_mapping (mkWorld (Refused undecodable_bytes) true [])
  = (Raise UnicodeDecodeError, mkWorld (Refused undecodable_bytes) true []) /\
  (forall w, (exists v, load_mapping w = (Ret v, w)) <->
             (forall c, w_file w <> Refused c)).
Proof.
  split; [|split].
  - intros c wr tr. destruct c; repeat split.
  - reflexivity.
  - intros w. rewrite load_mapping_eq. split.
    + intros [v Hv] c Hc. rewrite Hc in Hv. discriminate.
    + intros Hc. destruct (w_file w) as [| | |c|v]; try (eexists; reflexivity).
      now destruct (Hc c).
Qed.

(** C9. When the file parses to a value that is not an object, [load_mapping]
    returns that value as it is, not the empty mapping; the lookup built on
    it then fails on the missing [get] method.  The empty mapping comes back
    only from a missing file, a read error, a parse error, or a file that
    holds the empty object. *)
Theorem load_mapping_wrong_shape (v : pyval) (wr : bool) (tr : list event) :
  is_dict v = false ->
  load_mapping (mkWorld (Stored v) wr tr) = (Ret v, mkWorld (Stored v) wr tr) /\
  v <> PyDict [] /\
  (forall id, get_riseup_step_id L id (mkWorld (Stored v) wr tr)
              = (Raise AttributeError, mkWorld (Stored v) wr tr)) /\
  (forall w, fst (load_mapping w) = Ret (PyDict []) ->
             w_file w = Missing \/ w_file w = Unreadable \/ w_file w = Garbled
             \/ w_file w = Stored (PyDict [])).
Proof.
  intros Hv. split; [reflexivity|]. split; [|split].
  - intros ->. discriminate.
  - intros id. destruct v; try discriminate; reflexivity.
  - intros w. rewrite load_mapping_eq. cbn [fst].
    destruct (w_file w) as [| | |c|v0]; auto; [discriminate|].
    intros H. injection H as ->. auto.
Qed.

End MappingStore.

(** ** Computations that leave the mapping file alone *)

Section Frames.

Variable L : pylib.
Variable E : remote.
Variable C : config.

Lemma frames_ret {A} (a : A) : frames_file (ret a).
Proof. intro w; split; reflexivity. Qed.

Lemma frames_raise {A} (e : exn) : frames_file (@raise A e).
Proof. intro w; split; reflexivity. Qed.

Lemma frames_lift {A} (o : outcome A) : frames_file (lift o).
Proof. intro w; split; reflexivity. Qed.

Lemma frames_emit (e : event) : frames_file (emit e).
Proof. intro w; split; reflexivity. Qed.

Lemma frames_bind {A B} (m : M A) (k : A -> M B) :
  frames_file m -> (forall a, frames_file (k a)) -> frames_file (bind m k).
Proof.
  intros Hm Hk w. unfold bind. specialize (Hm w).
  destruct (m w) as [[a|e] w']; simpl in *.
  - destruct (Hk a w') as [H1 H2]. rewrite H1, H2. exact Hm.
  - exact Hm.
Qed.

Lemma frames_try_except {A} (m : M A) (h : exn -> M A) :
  frames_file m -> (forall e, frames_file (h e)) -> frames_file (try_except m h).
Proof.
  intros Hm Hh w. unfold try_except. specialize (Hm w).
  destruct (m w) as [[a|e] w']; simpl in *.
  - exact Hm.
  - destruct (Hh e w') as [H1 H2]. rewrite H1, H2. exact Hm.
Qed.

Lemma frames_call_riseup (rc : RiseUpClient) (c : riseup_call) :
  frames_file (call_riseup E rc c).
Proof. intro w; split; reflexivity. Qed.

Lemma frames_lb_make_request (method endpoint : string) (json : option pyval) :
  frames_file (lb_make_request E method endpoint json).
Proof. intro w; split; reflexivity. Qed.

Lemma frames_http_get (url : pyval) : frames_file (http_get E url).
Proof. intro w; split; reflexivity. Qed.

Lemma frames_load_mapping : frames_file load_mapping.
Proof.
  intro w. destruct w as [f wr tr]; destruct f as [| | |c|v];
    try destruct c; split; reflexivity.
Qed.

Create HintDb frames.

Ltac frames :=
  repeat first
    [ solve [auto with frames nocore]
    | apply frames_ret | apply frames_raise | apply frames_lift | apply frames_emit
    | apply frames_call_riseup | apply frames_lb_make_request | apply frames_http_get
    | apply frames_load_mapping
    | apply frames_bind; [|intro]
    | apply frames_try_except; [|intro]
    | match goal with
      | |- frames_file (if ?b then _ else _) => destruct b
      | |- frames_file (match ?x with _ => _ end) => destruct x
      end ].

Lemma frames_download_content (url : pyval) : frames_file (download_content E url).
Proof. unfold download_content. frames. Qed.
Hint Resolve frames_download_content : frames.

Lemma frames_upload_decoration (up : list byte -> string -> riseup_call)
    (rc : RiseUpClient) (d : option (list byte * string)) :
  frames_file (upload_decoration E up rc d).
Proof. unfold upload_decoration. frames. Qed.
Hint Resolve frames_upload_decoration : frames.

Lemma frames_lacks_id (x : pyval) : frames_file (lacks_id x).
Proof. unfold lacks_id. frames. Qed.
Hint Resolve frames_lacks_id : frames.

Lemma frames_build_hierarchy (rc : RiseUpClient)
    (t d s du r i b : pyval) (k : list pyval) :
  frames_file (build_hierarchy L E rc t d s du r i b k).
Proof.
  unfold build_hierarchy. frames.
Qed.
Hint Resolve frames_build_hierarchy : frames.

Lemma frames_sync_course_structure (lb_course : pyval) (rc : RiseUpClient) :
  frames_file (sync_course_structure L E lb_course rc).
Proof.
  unfold sync_course_structure. frames.
Qed.

Lemma frames_request_scorm_export (lbc : LearningBoxClient) (id : pyval) (url : string) :
  frames_file (request_scorm_export L E C lbc id url).
Proof. unfold request_scorm_export. frames. Qed.

End Frames.

(** ** The orchestrator *)

Section Orchestrator.

Variable L : pylib.
Variable E : remote.
Variable C : config.
Variable lb_client : LearningBoxClient.
Variable riseup_client : RiseUpClient.
Variable webhook_url : string.

Local Abbreviation body := (main_loop_body L E C lb_client riseup_client webhook_url).


Lemma whole_of_frames {A} (m : M A) (w : world) :
  frames_file m -> writes_are_whole L w -> writes_are_whole L (snd (m w)).
Proof.
  intros Hm [Hw|Hw]; [left|right; exact Hw].
  destruct (Hm w) as [_ H2]. now rewrite H2.
Qed.






(** Each iteration that returns has moved exactly one counter by one. *)
Lemma main_loop_body_counts_once (snapshot : pyval) (t t' : tally)
    (lb_course : pyval) (w w' : world) :
  body snapshot t lb_course w = (Ret t', w') ->
  success_count t' + fail_count t' + skip_count t'
  = success_count t + fail_count t + skip_count t + 1.
Proof.
  unfold main_loop_body, bind, lift.
  destruct (py_get lb_course "id" PyNone) as [lb_id|e]; [|discriminate].
  destruct (py_truthy lb_id); cbn [negb];
    [|intros H; injection H as <- _; cbn; lia].
  destruct (py_contains (py_str L lb_id) snapshot) as [[|]|e];
    [intros H; injection H as <- _; cbn; lia| |discriminate].
  destruct (sync_course_structure L E lb_course riseup_client w)
    as [[step|e] w1]; [|discriminate].
  destruct (py_truthy step); [|intros H; injection H as <- _; cbn; lia].
  destruct (add_or_update_mapping L lb_id step w1) as [[[]|e] w2]; [|discriminate].
  destruct (request_scorm_export L E C lb_client lb_id webhook_url w2)
    as [[r|e] w3]; [|discriminate].
  destruct (negb (is_none r)); intros H; injection H as <- _; cbn; lia.
Qed.

(** X27. When the loop runs to its end the three counters have grown by
    exactly the number of descriptors: each one was counted once, as a
    success, a skip or a failure. *)
Lemma for_each_counts (snapshot : pyval) (courses : list pyval) :
  forall (t t' : tally) (w w' : world),
    for_each (body snapshot) courses t w = (Ret t', w') ->
    success_count t' + fail_count t' + skip_count t'
    = success_count t + fail_count t + skip_count t + List.length courses.
Proof.
  induction courses as [|c cs IH]; intros t t' w w' H.
  - injection H as <- _. cbn. lia.
  - cbn [for_each] in H. unfold bind in H.
    destruct (body snapshot t c w) as [[t1|e] w1] eqn:Hb; [|discriminate].
    apply IH in H. apply main_loop_body_counts_once in Hb. cbn [List.length]. lia.
Qed.


(** Inside [request_scorm_export] a [RequestException] of the exchange
    becomes the result [None], once [int(course_id)] has gone through. *)
Lemma request_scorm_export_catches (id : pyval) (n : Z) (w : world) :
  py_int L id = Ret n ->
  learningbox E (w_trace w) "POST" "/learningbox/request-by-id"
              (Some (export_payload C n webhook_url)) = Raise RequestException ->
  fst (request_scorm_export L E C lb_client id webhook_url w) = Ret PyNone.
Proof.
  intros Hn Hr. unfold request_scorm_export, bind, lift. rewrite Hn.
  unfold try_except, lb_make_request. rewrite Hr. reflexivity.
Qed.





End Orchestrator.

(** ** The webhook receiver *)

Section Webhook.

Variable L : pylib.
Variable E : remote.
Variable client : RiseUpClient.

(** The pipeline of a well-formed request, from the lookup on. *)
Lemma webhook_pipeline_well_formed (req : request) (id zip : string) (w : world) :
  well_formed L req id zip ->
  webhook_pipeline L E client req w =
  (riseup_step_id <- get_riseup_step_id L (PyStr id) ;;
   if negb (py_truthy riseup_step_id) then
     ret (mkResponse "acknowledged_error" "Mapping not found" 200)
   else
     decoded <- try_except (b <- base64_b64decode L zip ;; ret (Some b))
                  (fun e => if isinstance e binascii_Error then ret None else raise e) ;;
     match decoded with
     | None => ret (mkResponse "error" "Invalid Base64 data" 400)
     | Some scorm_zip_bytes =>
         try_except
           (_ <- call_riseup E client
                   (upload_scorm_content riseup_step_id scorm_zip_bytes
                      ("lb_" ++ id ++ "_scorm.zip")%string) ;;
            ret (mkResponse "success" "SCORM uploaded to RiseUp" 200))
           (fun e =>
              if isinstance e RequestException || isinstance e ConnectionError
              then ret (mkResponse "error" "Failed to upload SCORM to RiseUp" 502)
              else raise e)
     end) w.
Proof.
  intros (parsed & ids & zips & Hp & Hi & Hz).
  unfold webhook_pipeline, bind at 1, lift. rewrite Hp, Hi, Hz. reflexivity.
Qed.

(** C5. A well-formed request whose course id has no entry in the mapping
    is acknowledged with status 200, and the world is left as it was:
    nothing was decoded, nothing was uploaded. *)
Theorem unmapped_course_is_acknowledged (req : request) (id zip : string)
    (m : pydict) (w : world) :
  well_formed L req id zip ->
  load_mapping w = (Ret (PyDict m), w) ->
  dict_get m id = None ->
  handle_learningbox_webhook L E (Some client) req w
  = (Ret (mkResponse "acknowledged_error" "Mapping not found" 200), w).
Proof.
  intros Hwf Hload Hm. unfold handle_learningbox_webhook, try_except.
  rewrite (webhook_pipeline_well_formed req id zip w Hwf).
  unfold bind at 1, get_riseup_step_id, bind at 1. rewrite Hload.
  cbn [lift py_get py_str]. rewrite Hm. reflexivity.
Qed.

(** The lookup of a stored, truthy step id. *)
Lemma get_riseup_step_id_stored (id : string) (m : pydict) (step : pyval) (w : world) :
  w_file w = Stored (PyDict m) ->
  dict_get m id = Some step ->
  get_riseup_step_id L (PyStr id) w = (Ret step, w).
Proof.
  intros Hf Hm. unfold get_riseup_step_id, bind. rewrite load_mapping_eq, Hf.
  cbn [lift py_get py_str]. now rewrite Hm.
Qed.

(** C7, as the code has it.  A well-formed request whose course id maps to
    a truthy step id and whose payload decodes makes exactly one upload
    call, to that step id, with the decoded bytes.  The answer is 200 with
    the confirmation when the call returns, 502 when it raises a
    [RequestException] or a [ConnectionError], 500 for any other
    exception.  A well-formed request whose course id maps to a falsy
    value is answered as if there were no mapping, whatever its payload:
    200 with the acknowledgment, and the world left as it was, so nothing
    was decoded and nothing uploaded. *)
Theorem mapped_payload_is_uploaded_once (req : request) (id zip : string)
    (m : pydict) (step : pyval) (w : world) :
  well_formed L req id zip ->
  w_file w = Stored (PyDict m) ->
  dict_get m id = Some step ->
  (py_truthy step = true ->
   forall scorm_zip_bytes : list byte,
   b64decode L zip = Ret scorm_zip_bytes ->
   exists (r : outcome pyval) (resp : response),
     r = riseup E (w_trace w ++ [B64Decode zip])
           (upload_scorm_content step scorm_zip_bytes ("lb_" ++ id ++ "_scorm.zip")%string) /\
     handle_learningbox_webhook L E (Some client) req w
     = (Ret resp,
        mkWorld (w_file w) (w_writable w)
          (w_trace w ++ [B64Decode zip;
                         RiseUp (upload_scorm_content step scorm_zip_bytes
                                   ("lb_" ++ id ++ "_scorm.zip")%string) r])) /\
     match r with
     | Ret _ => resp = mkResponse "success" "SCORM uploaded to RiseUp" 200
     | Raise e =>
         resp = (if isinstance e RequestException || isinstance e ConnectionError
                 then mkResponse "error" "Failed to upload SCORM to RiseUp" 502
                 else mkResponse "error" "Internal server error" 500) /\
         500 <= status_code resp < 600
     end) /\
  (py_truthy step = false ->
   handle_learningbox_webhook L E (Some client) req w
   = (Ret (mkResponse "acknowledged_error" "Mapping not found" 200), w)).
Proof.
  intros Hwf Hf Hm. split.
  - intros Hstep scorm_zip_bytes Hdec.
    exists (riseup E (w_trace w ++ [B64Decode zip])
              (upload_scorm_content step scorm_zip_bytes
                 ("lb_" ++ id ++ "_scorm.zip")%string)).
    exists (match riseup E (w_trace w ++ [B64Decode zip])
                    (upload_scorm_content step scorm_zip_bytes
                       ("lb_" ++ id ++ "_scorm.zip")%string) with
            | Ret _ => mkResponse "success" "SCORM uploaded to RiseUp" 200
            | Raise e =>
                if isinstance e RequestException || isinstance e ConnectionError
                then mkResponse "error" "Failed to upload SCORM to RiseUp" 502
                else mkResponse "error" "Internal server error" 500
            end).
    split; [reflexivity|].
    unfold handle_learningbox_webhook, try_except at 1.
    rewrite (webhook_pipeline_well_formed req id zip w Hwf).
    unfold bind at 1. rewrite (get_riseup_step_id_stored id m step w Hf Hm), Hstep.
    cbn [negb]. unfold bind at 1, try_except at 1, bind at 1, base64_b64decode, bind at 1.
    cbn [emit lift]. rewrite Hdec. cbn [ret].
    unfold try_except, bind, call_riseup. cbn [w_trace w_file w_writable].
    rewrite <- app_assoc. cbn [app].
    destruct (riseup E (w_trace w ++ [B64Decode zip])
                (upload_scorm_content step scorm_zip_bytes
                   ("lb_" ++ id ++ "_scorm.zip")%string)) as [v|e] eqn:Hr.
    + cbn. split; reflexivity.
    + destruct (isinstance e RequestException || isinstance e ConnectionError) eqn:Hc.
      * cbn. split; [reflexivity|]. split; [reflexivity|]. cbn. split.
        -- apply Nat.leb_le. reflexivity.
        -- apply Nat.ltb_lt. reflexivity.
      * unfold raise. rewrite isinstance_Exception. cbn.
        split; [reflexivity|]. split; [reflexivity|]. cbn. split.
        -- apply Nat.leb_le. reflexivity.
        -- apply Nat.ltb_lt. reflexivity.
  - intros Hstep.
    unfold handle_learningbox_webhook, try_except.
    rewrite (webhook_pipeline_well_formed req id zip w Hwf).
    unfold bind at 1. rewrite (get_riseup_step_id_stored id m step w Hf Hm), Hstep.
    reflexivity.
Qed.

(** X30. The guarded decode.  A well-formed request that reaches a stored,
    truthy step id and whose payload makes [base64.b64decode] raise
    [binascii.Error] is answered with status 400; the decode attempt is the
    only thing that happened, so no upload call was made. *)
Theorem invalid_base64_is_client_error (req : request) (id zip : string)
    (m : pydict) (step : pyval) (w : world) :
  well_formed L req id zip ->
  w_file w = Stored (PyDict m) ->
  dict_get m id = Some step ->
  py_truthy step = true ->
  b64decode L zip = Raise binascii_Error ->
  handle_learningbox_webhook L E (Some client) req w
  = (Ret (mkResponse "error" "Invalid Base64 data" 400),
     mkWorld (w_file w) (w_writable w) (w_trace w ++ [B64Decode zip])).
Proof.
  intros Hwf Hf Hm Hstep Hdec.
  unfold handle_learningbox_webhook, try_except at 1.
  rewrite (webhook_pipeline_well_formed req id zip w Hwf).
  unfold bind at 1. rewrite (get_riseup_step_id_stored id m step w Hf Hm), Hstep.
  cbn [negb]. unfold bind at 1, try_except at 1, bind at 1, base64_b64decode, bind at 1.
  cbn [emit lift]. rewrite Hdec. reflexivity.
Qed.

End Webhook.

(** ** Worked examples *)

(** What the escape of C3 costs the two callers of the store: with a mapping
    file whose bytes do not decode, a run of [main] ends on the exception
    before any request is made, and the webhook receiver answers 500. *)
Example undecodable_file_stops_the_callers :
  main plain_lib (scripted_remote two_courses export_ok (Ret PyNone)) sample_config
       (mkWorld (Refused undecodable_bytes) true [])
  = (Raise UnicodeDecodeError, mkWorld (Refused undecodable_bytes) true []) /\
  handle_learningbox_webhook plain_lib
    (scripted_remote two_courses export_ok (Ret PyNone))
    (Some sample_riseup_client) sample_request
    (mkWorld (Refused undecodable_bytes) true [])
  = (Ret (mkResponse "error" "Internal server error" 500),
     mkWorld (Refused undecodable_bytes) true []).
Proof. split; reflexivity. Qed.

(** C8, on the code.  The handler calls [base64.b64decode] with [validate]
    left at [False], and the decoder then discards what is not in the
    alphabet instead of refusing it.  The payload ["aGVs!bG8="] is not valid
    base64; it decodes to the five bytes of hello.  With course 42 mapped
    to step 999 the handler makes the upload call with these bytes,
    whatever the Target LMS then answers, and its answer is never 400; when
    the call returns the answer is 200 with the confirmation. *)
Theorem invalid_base64_is_decoded_and_uploaded (E : remote) :
  valid_base64 stray_payload = false /\
  b64decode lenient_lib stray_payload = Ret hello_bytes /\
  exists resp : response,
    handle_learningbox_webhook lenient_lib E (Some sample_riseup_client)
      stray_request mapped_world
    = (Ret resp,
       mkWorld (w_file mapped_world) true
         [B64Decode stray_payload;
          RiseUp (upload_scorm_content (PyInt 999) hello_bytes "lb_42_scorm.zip")
                 (riseup E [B64Decode stray_payload]
                    (upload_scorm_content (PyInt 999) hello_bytes "lb_42_scorm.zip"))]) /\
    status_code resp <> 400 /\
    (forall v,
        riseup E [B64Decode stray_payload]
          (upload_scorm_content (PyInt 999) hello_bytes "lb_42_scorm.zip") = Ret v ->
        resp = mkResponse "success" "SCORM uploaded to RiseUp" 200).
Proof.
  split; [reflexivity|]. split; [reflexivity|].
  unfold handle_learningbox_webhook, try_except at 1.
  rewrite (webhook_pipeline_well_formed lenient_lib E sample_riseup_client
             stray_request "42" stray_payload mapped_world)
    by (exists [("modules[0][id]", ["42"]); ("modules[0][zip]", [stray_payload])], [], [];
        repeat split).
  unfold bind at 1.
  rewrite (get_riseup_step_id_stored lenient_lib "42" [("42", PyInt 999)] (PyInt 999)
             mapped_world eq_refl eq_refl).
  cbn [py_truthy negb Z.eqb].
  unfold bind at 1, try_except at 1, bind at 1, base64_b64decode, bind at 1.
  cbn [emit lift].
  change (b64decode lenient_lib stray_payload) with (Ret hello_bytes).
  cbn [ret]. unfold try_except, bind, call_riseup.
  cbn [w_trace w_file w_writable mapped_world app].
  change ("lb_" ++ "42" ++ "_scorm.zip")%string with "lb_42_scorm.zip".
  destruct (riseup E [B64Decode stray_payload]
              (upload_scorm_content (PyInt 999) hello_bytes "lb_42_scorm.zip"))
    as [v|e] eqn:Hr.
  - eexists. split; [reflexivity|]. split; [discriminate|]. reflexivity.
  - destruct (isinstance e RequestException || isinstance e ConnectionError) eqn:Hc.
    + eexists. split; [reflexivity|]. split; [discriminate|]. discriminate.
    + unfold raise. rewrite isinstance_Exception.
      eexists. split; [reflexivity|]. split; [discriminate|]. discriminate.
Qed.

(** C2, on the code.  The loop has no handler of its own.  With a catalog
    whose first descriptor carries ["tags": null], the comprehension over
    the tags raises [TypeError] before the guarded block of
    [sync_course_structure]; with a first descriptor whose id is the text
    ["LB-7"], [int(course_id)] raises [ValueError] before the guarded call of
    [request_scorm_export].  Either way [main] ends with the exception: the
    second descriptor is never looked at and no tally is printed. *)
Theorem one_bad_descriptor_aborts_the_run :
  (fst (main plain_lib (scripted_remote null_tags_catalog export_ok (Ret PyNone))
             sample_config fresh_world) = Raise TypeError /\
   existsb is_tally
     (w_trace (snd (main plain_lib (scripted_remote null_tags_catalog export_ok (Ret PyNone))
                         sample_config fresh_world))) = false /\
   existsb is_creation
     (w_trace (snd (main plain_lib (scripted_remote null_tags_catalog export_ok (Ret PyNone))
                         sample_config fresh_world))) = false) /\
  (fst (main plain_lib (scripted_remote textual_id_catalog export_ok (Ret PyNone))
             sample_config fresh_world) = Raise ValueError /\
   existsb is_tally
     (w_trace (snd (main plain_lib (scripted_remote textual_id_catalog export_ok (Ret PyNone))
                         sample_config fresh_world))) = false /\
   w_file (snd (main plain_lib (scripted_remote textual_id_catalog export_ok (Ret PyNone))
                     sample_config fresh_world))
   = Stored (PyDict [("LB-7", PyInt 103)])).
Proof. repeat split; vm_compute; reflexivity. Qed.

(** Where the code does isolate: an export that fails with a
    [RequestException] costs each course a failure, and the run reaches its
    tally with both mappings kept. *)
Example failed_exports_do_not_stop_the_run :
  fst (main plain_lib (scripted_remote two_courses (Raise RequestException) (Ret PyNone))
            sample_config fresh_world) = Ret tt /\
  filter is_tally
    (w_trace (snd (main plain_lib
                     (scripted_remote two_courses (Raise RequestException) (Ret PyNone))
                     sample_config fresh_world)))
  = [Print (SyncProcessComplete 0 0 2)] /\
  w_file (snd (main plain_lib
                 (scripted_remote two_courses (Raise RequestException) (Ret PyNone))
                 sample_config fresh_world))
  = Stored (PyDict [("7", PyInt 103); ("8", PyInt 108)]).
Proof. repeat split; vm_compute; reflexivity. Qed.

(** A mapping written by the run itself does not make the run skip: the
    same course listed twice is built twice. *)
Example same_run_mapping_never_skips :
  filter is_tally
    (w_trace (snd (main plain_lib (scripted_remote same_course_twice export_ok (Ret PyNone))
                        sample_config fresh_world)))
  = [Print (SyncProcessComplete 2 0 0)].
Proof. vm_compute; reflexivity. Qed.

(** An empty catalog ends the run before the loop, without a tally. *)
Example empty_catalog_prints_no_tally :
  main plain_lib (scripted_remote (PyList []) export_ok (Ret PyNone))
       sample_config fresh_world
  = (Ret tt,
     mkWorld Missing true
       [LearningBox "GET" "/learningbox/list" None
          (Ret (PyDict [("status", PyStr "ok"); ("modules", PyList [])]));
        Print NoCoursesFound]).
Proof. vm_compute; reflexivity. Qed.

Lemma upsert_then_get_witness :
  exists w',
    (add_or_update_mapping plain_lib (PyInt 42) (PyInt 999) ;;;
     get_riseup_step_id plain_lib (PyStr "42")) fresh_world
    = (Ret (PyInt 999), w') /\
    has_entry "42" w'.
Proof.
  apply (upsert_then_get plain_lib 42 (PyInt 999) (PyInt 42) (PyStr "42") fresh_world).
  - split; [reflexivity|exact I].
  - left; reflexivity.
  - right; left; reflexivity.
Defined.

Lemma load_mapping_wrong_shape_witness :
  load_mapping list_world = (Ret (PyList []), list_world) /\
  get_riseup_step_id plain_lib (PyInt 42) list_world = (Raise AttributeError, list_world).
Proof.
  destruct (load_mapping_wrong_shape plain_lib (PyList []) true [] eq_refl)
    as (H1 & _ & H3 & _).
  split; [exact H1|exact (H3 (PyInt 42))].
Defined.





Lemma unmapped_course_is_acknowledged_witness :
  handle_learningbox_webhook plain_lib (scripted_remote two_courses export_ok (Ret PyNone))
    (Some sample_riseup_client) sample_request fresh_world
  = (Ret (mkResponse "acknowledged_error" "Mapping not found" 200), fresh_world).
Proof.
  apply (unmapped_course_is_acknowledged plain_lib
           (scripted_remote two_courses export_ok (Ret PyNone)) sample_riseup_client
           sample_request "42" "aGk=" [] fresh_world).
  - exists [("modules[0][id]", ["42"]); ("modules[0][zip]", ["aGk="])], [], [].
    repeat split.
  - reflexivity.
  - reflexivity.
Defined.

Lemma mapped_payload_is_uploaded_once_witness :
  handle_learningbox_webhook plain_lib (scripted_remote two_courses export_ok (Ret PyNone))
    (Some sample_riseup_client) sample_request mapped_world
  = (Ret (mkResponse "success" "SCORM uploaded to RiseUp" 200),
     mkWorld (w_file mapped_world) true
       [B64Decode "aGk=";
        RiseUp (upload_scorm_content (PyInt 999) ["h"%byte; "i"%byte] "lb_42_scorm.zip")
               (Ret PyNone)]).
Proof.
  destruct (mapped_payload_is_uploaded_once plain_lib
              (scripted_remote two_courses export_ok (Ret PyNone)) sample_riseup_client
              sample_request "42" "aGk=" [("42", PyInt 999)] (PyInt 999) mapped_world)
    as [Hup _].
  - exists [("modules[0][id]", ["42"]); ("modules[0][zip]", ["aGk="])], [], [].
    repeat split.
  - reflexivity.
  - reflexivity.
  - destruct (Hup eq_refl ["h"%byte; "i"%byte] eq_refl) as (r & resp & Hr & Hrun & Hresp).
    subst r. cbn in Hresp. subst resp. exact Hrun.
Defined.

(** C7, as stated, at a falsy step id: course 42 maps to step 0 (or to the
    empty string), the payload decodes, and the handler acknowledges
    without any upload call. *)
Lemma falsy_step_id_is_not_uploaded :
  get_riseup_step_id plain_lib (PyStr "42") zero_step_world
  = (Ret (PyInt 0), zero_step_world) /\
  b64decode plain_lib "aGk=" = Ret ["h"%byte; "i"%byte] /\
  handle_learningbox_webhook plain_lib (scripted_remote two_courses export_ok (Ret PyNone))
    (Some sample_riseup_client) sample_request zero_step_world
  = (Ret (mkResponse "acknowledged_error" "Mapping not found" 200), zero_step_world) /\
  existsb is_upload (w_trace zero_step_world) = false /\
  handle_learningbox_webhook plain_lib (scripted_remote two_courses export_ok (Ret PyNone))
    (Some sample_riseup_client) sample_request empty_step_world
  = (Ret (mkResponse "acknowledged_error" "Mapping not found" 200), empty_step_world).
Proof. repeat split. Qed.

Lemma invalid_base64_is_client_error_witness :
  handle_learningbox_webhook plain_lib (scripted_remote two_courses export_ok (Ret PyNone))
    (Some sample_riseup_client) truncated_request mapped_world
  = (Ret (mkResponse "error" "Invalid Base64 data" 400),
     mkWorld (w_file mapped_world) true [B64Decode "aGk"]).
Proof.
  apply (invalid_base64_is_client_error plain_lib
           (scripted_remote two_courses export_ok (Ret PyNone)) sample_riseup_client
           truncated_request "42" "aGk" [("42", PyInt 999)] (PyInt 999) mapped_world).
  - exists [("modules[0][id]", ["42"]); ("modules[0][zip]", ["aGk"])], [], [].
    repeat split.
  - reflexivity.
  - reflexivity.
  - reflexivity.
  - reflexivity.
Defined.

(** * Further properties of the mapping store *)

Section MappingStoreMore.

Variable L : pylib.

Lemma dict_get_set_other (d : pydict) (k k0 : string) (v : pyval) :
  k0 <> k -> dict_get (dict_set d k v) k0 = dict_get d k0.
Proof.
  intros Hne. induction d as [|[k' v'] d IH]; simpl.
  - destruct (String.eqb k k0) eqn:Hk; auto.
    apply String.eqb_eq in Hk. congruence.
  - destruct (String.eqb k' k) eqn:Hk; simpl.
    + apply String.eqb_eq in Hk. subst k'.
      destruct (String.eqb k k0) eqn:Hk0; auto.
      apply String.eqb_eq in Hk0. congruence.
    + destruct (String.eqb k' k0); auto.
Qed.

Lemma dict_set_set (d : pydict) (k : string) (v1 v2 : pyval) :
  dict_set (dict_set d k v1) k v2 = dict_set d k v2.
Proof.
  induction d as [|[k' v'] d IH]; simpl.
  - now rewrite String.eqb_refl.
  - destruct (String.eqb k' k) eqn:Hk; simpl; rewrite Hk; [reflexivity|].
    now rewrite IH.
Qed.

Lemma dict_set_keys (d : pydict) (k : string) (v : pyval) :
  map fst (dict_set d k v)
  = if dict_has d k then map fst d else map fst d ++ [k].
Proof.
  unfold dict_has. induction d as [|[k' v'] d IH]; simpl; [reflexivity|].
  destruct (String.eqb k' k) eqn:Hk; simpl; [reflexivity|].
  rewrite IH. destruct (dict_get d k); reflexivity.
Qed.

Lemma dict_get_none_not_key (d : pydict) (k : string) :
  dict_get d k = None -> ~ In k (map fst d).
Proof.
  induction d as [|[k' v'] d IH]; simpl; [tauto|].
  destruct (String.eqb k' k) eqn:Hk; [discriminate|].
  intros Hd [Heq|Hin]; [|now apply IH].
  subst k'. now rewrite String.eqb_refl in Hk.
Qed.

(** The dict an upsert starts from. *)
Lemma loaded_dict_in_service (w : world) :
  store_in_service w ->
  load_mapping w
  = (Ret (PyDict (match w_file w with Stored (PyDict d) => d | _ => [] end)), w).
Proof.
  intros [_ Hf]. rewrite load_mapping_eq.
  destruct (w_file w) as [| | |c|v]; try contradiction; try reflexivity.
  destruct v; try contradiction. reflexivity.
Qed.

(** X1. Looking up an id that has no entry returns [None], without raising
    and without touching the world, when the file is missing, cannot be
    opened, is rejected by [json] with a [JSONDecodeError], or holds an
    object without that key.  When [json.load] fails in another way the
    lookup raises that error: nothing between [json.load] and the caller
    catches it. *)
Theorem lookup_of_unknown_id (id : pyval) (w : world) :
  (forall v, w_file w = Stored v ->
             exists m, v = PyDict m /\ dict_get m (py_str L id) = None) ->
  get_riseup_step_id L id w =
  (match w_file w with
   | Refused c => Raise (load_exn c)
   | _ => Ret PyNone
   end, w).
Proof.
  intros Hf. unfold get_riseup_step_id, bind. rewrite load_mapping_eq.
  destruct (w_file w) as [| | |c|v]; try reflexivity.
  destruct (Hf v eq_refl) as (m & -> & Hm). cbn [lift py_get]. now rewrite Hm.
Qed.

(** X2. A failed write is silent, and may cost the whole store.  When the
    write does not go through, [add_or_update_mapping] still returns
    normally.  If it is [open(.., 'w')] that failed, the file is what it was
    and every later lookup answers as it would have before the call.  If
    the failure came after [open] had truncated the file, the former
    content is gone: what is left does not parse, and every later lookup
    returns [None]. *)
Theorem failed_write_is_silent (a y b : pyval) (w : world) :
  w_writable w = false ->
  (forall v, w_file w = Stored v -> is_dict v = true) ->
  (forall c, w_file w <> Refused c) ->
  exists w',
    add_or_update_mapping L a y w = (Ret tt, w') /\
    if write_fails_at_open L (w_trace w)
    then w_file w' = w_file w /\
         fst (get_riseup_step_id L b w') = fst (get_riseup_step_id L b w)
    else w_file w' = match w_file w with Unreadable => Unreadable | _ => Garbled end /\
         get_riseup_step_id L b w' = (Ret PyNone, w').
Proof.
  intros Hw Hf Hc. unfold add_or_update_mapping, bind.
  rewrite (load_mapping_loads w Hc).
  assert (Hd : exists d, (match w_file w with Stored v => v | _ => PyDict [] end)
                         = PyDict d).
  { destruct (w_file w) as [| | |c|v] eqn:E; try (exists []; reflexivity).
    specialize (Hf v eq_refl). destruct v; try discriminate. eexists; reflexivity. }
  destruct Hd as [d ->]. cbn [lift py_setitem].
  unfold save_mapping, try_except, open_w_json_dump. rewrite Hw.
  destruct (write_fails_at_open L (w_trace w)); cbn.
  - eexists. split; [reflexivity|]. split; [reflexivity|].
    unfold get_riseup_step_id, bind. rewrite !load_mapping_eq. cbn [w_file].
    destruct (w_file w); reflexivity.
  - eexists. split; [reflexivity|]. split; [reflexivity|].
    unfold get_riseup_step_id, bind. rewrite load_mapping_eq. cbn [w_file].
    destruct (w_file w); reflexivity.
Qed.

(** X3. An upsert leaves the other entries alone: a lookup under a key that
    differs from the one written answers as before. *)
Theorem upsert_keeps_other_entries (a y b : pyval) (w : world) :
  store_in_service w ->
  py_str L a <> py_str L b ->
  fst (get_riseup_step_id L b (snd (add_or_update_mapping L a y w)))
  = fst (get_riseup_step_id L b w).
Proof.
  intros Hs Hne. rewrite (add_or_update_mapping_in_service L a y w Hs). cbv zeta.
  unfold get_riseup_step_id, bind. rewrite load_mapping_eq.
  rewrite (loaded_dict_in_service w Hs). cbn [snd w_file lift py_get fst].
  rewrite dict_get_set_other by congruence. reflexivity.
Qed.

(** X4. The last write wins, in place: two upserts under the same key leave
    the file exactly as the second one alone would have. *)
Theorem second_upsert_overwrites (a a' y1 y2 : pyval) (w : world) :
  store_in_service w ->
  py_str L a = py_str L a' ->
  w_file (snd ((add_or_update_mapping L a y1 ;;; add_or_update_mapping L a' y2) w))
  = w_file (snd (add_or_update_mapping L a' y2 w)).
Proof.
  intros Hs Hk. unfold bind.
  rewrite (add_or_update_mapping_in_service L a y1 w Hs). cbv zeta.
  rewrite (add_or_update_mapping_in_service L a' y2 w Hs). cbv zeta.
  rewrite add_or_update_mapping_in_service by (split; [reflexivity|exact I]).
  cbn [snd w_file]. rewrite Hk, dict_set_set. reflexivity.
Qed.

(** X5. An upsert keeps the order of the keys that are there and never
    duplicates one: a key already present stays where it is, a new key goes
    to the end. *)
Theorem upsert_keeps_key_order (a y : pyval) (d : pydict) (tr : list event) :
  NoDup (map fst d) ->
  exists m,
    w_file (snd (add_or_update_mapping L a y (mkWorld (Stored (PyDict d)) true tr)))
    = Stored (PyDict m) /\
    map fst m = (if dict_has d (py_str L a) then map fst d
                 else map fst d ++ [py_str L a]) /\
    NoDup (map fst m).
Proof.
  intros Hnd.
  rewrite add_or_update_mapping_in_service by (split; [reflexivity|exact I]).
  cbn [snd w_file]. eexists. split; [reflexivity|].
  split; [apply dict_set_keys|].
  rewrite dict_set_keys. unfold dict_has.
  destruct (dict_get d (py_str L a)) eqn:Hg; [exact Hnd|].
  apply NoDup_app; [exact Hnd| |].
  - constructor; [intros []|constructor].
  - intros k Hin [<-|[]]. now apply (dict_get_none_not_key d _ Hg).
Qed.

(** X6. On a file that holds JSON of the wrong shape the upsert raises
    [TypeError] and nothing is written. *)
Theorem upsert_on_wrong_shape_raises (a y v : pyval) (wr : bool) (tr : list event) :
  is_dict v = false ->
  add_or_update_mapping L a y (mkWorld (Stored v) wr tr)
  = (Raise TypeError, mkWorld (Stored v) wr tr).
Proof.
  intros Hv. destruct v; try discriminate; reflexivity.
Qed.

(** X7. Entries are shared exactly through [str]: two ids of any types with
    the same string form reach the same entry, so a lookup under one returns
    what was written under the other (the boolean [True] and the text
    ["True"], [None] and ["None"], an integer and its numeral). *)
Theorem same_string_form_shares_entry (a b y : pyval) (w : world) :
  store_in_service w ->
  py_str L a = py_str L b ->
  fst (get_riseup_step_id L b (snd (add_or_update_mapping L a y w))) = Ret y.
Proof.
  intros Hs Hk. rewrite (add_or_update_mapping_in_service L a y w Hs). cbv zeta.
  unfold get_riseup_step_id, bind. rewrite load_mapping_eq.
  cbn [snd w_file lift py_get fst]. rewrite <- Hk, dict_get_set_same. reflexivity.
Qed.

(** An upsert on a file that [json] rejects starts from the empty mapping:
    the old content is replaced by the single new entry. *)
Lemma upsert_replaces_garbled_file (a y : pyval) (tr : list event) :
  add_or_update_mapping L a y (mkWorld Garbled true tr)
  = (Ret tt,
     mkWorld (Stored (PyDict [(py_str L a, y)])) true
             (tr ++ [FileWrite (PyDict [(py_str L a, y)]) true])).
Proof. reflexivity. Qed.

Lemma to_int_not_nil (z : Z) :
  Z.to_int z <> Decimal.Pos Decimal.Nil /\ Z.to_int z <> Decimal.Neg Decimal.Nil.
Proof.
  destruct z as [|p|p]; cbn; split; try discriminate;
    intros H; injection H as H;
    apply (f_equal Pos.of_uint) in H; rewrite DecimalPos.Unsigned.of_to in H;
    discriminate.
Qed.

(** X8. [str] keeps integers apart, so two different integer ids never share
    an entry: an upsert under one does not change the lookup under the
    other. *)
Theorem distinct_ids_do_not_collide (z1 z2 : Z) (y : pyval) (w : world) :
  store_in_service w ->
  z1 <> z2 ->
  py_str L (PyInt z1) <> py_str L (PyInt z2) /\
  fst (get_riseup_step_id L (PyInt z2)
         (snd (add_or_update_mapping L (PyInt z1) y w)))
  = fst (get_riseup_step_id L (PyInt z2) w).
Proof.
  intros Hs Hz.
  assert (Hne : py_str L (PyInt z1) <> py_str L (PyInt z2)).
  { cbn [py_str]. unfold str_of_int. intros Heq. apply Hz.
    apply DecimalZ.to_int_inj.
    destruct (to_int_not_nil z1) as [Ha Hb].
    destruct (to_int_not_nil z2) as [Hc Hd].
    pose proof (NilZero.isi (Z.to_int z1) Ha Hb) as H1.
    pose proof (NilZero.isi (Z.to_int z2) Hc Hd) as H2.
    rewrite Heq in H1. rewrite H1 in H2. now injection H2. }
  split; [exact Hne|].
  rewrite (add_or_update_mapping_in_service L (PyInt z1) y w Hs). cbv zeta.
  unfold get_riseup_step_id, bind. rewrite load_mapping_eq.
  rewrite (loaded_dict_in_service w Hs). cbn [snd w_file lift py_get fst].
  rewrite dict_get_set_other by congruence. reflexivity.
Qed.

End MappingStoreMore.

(** * Further properties of the configuration and of the start of [main] *)

Section Startup.

Variable L : pylib.
Variable E : remote.
Variable C : config.

Lemma rstrip_slash_spec (s : string) :
  ends_with_slash (rstrip_slash s) = false /\
  exists n, s = (rstrip_slash s ++ slashes n)%string.
Proof.
  induction s as [|c s [IH1 [n IH2]]]; cbn [rstrip_slash].
  - split; [reflexivity|]. exists 0. reflexivity.
  - destruct (rstrip_slash s) as [|c' r] eqn:Hr.
    + destruct (Ascii.eqb c "/") eqn:Hc.
      * split; [reflexivity|]. exists (S n).
        apply Ascii.eqb_eq in Hc. subst c. cbn. now rewrite IH2 at 1.
      * split; [cbn; exact Hc|]. exists n. cbn. now rewrite IH2 at 1.
    + split.
      * cbn [ends_with_slash]. exact IH1.
      * exists n. cbn. now rewrite IH2 at 1.
Qed.

Lemma validate_config_eq :
  validate_config C = (if config_complete C then Ret tt else Raise ValueError).
Proof.
  unfold validate_config, required_vars, config_complete. cbn [filter snd map fst].
  destruct (opt_truthy (RISEUP_PUBLIC_KEY C)), (opt_truthy (RISEUP_PRIVATE_KEY C)),
    (opt_truthy (RISEUP_API_ENDPOINT C)),
    (Z.eqb (RISEUP_CREATOR_USER_ID C) 0),
    (opt_truthy (LEARNINGBOX_API_KEY C)), (opt_truthy (LEARNINGBOX_API_ENDPOINT C)),
    (opt_truthy (WEBHOOK_BASE_URL C)); reflexivity.
Qed.

(** X9. [validate_config] accepts exactly the configurations in which the
    six required strings are non-empty and the creator id is not 0; every
    other one raises [ValueError].  A creator id of 0 is thus rejected, never
    defaulted. *)
Theorem validate_config_accepts_exactly :
  validate_config C = (if config_complete C then Ret tt else Raise ValueError) /\
  (RISEUP_CREATOR_USER_ID C = 0%Z -> validate_config C = Raise ValueError).
Proof.
  split; [exact validate_config_eq|].
  intros Hz. rewrite validate_config_eq. unfold config_complete. rewrite Hz.
  cbn. rewrite !andb_false_r. reflexivity.
Qed.

(** X10. The webhook URL is the base without its trailing slashes followed
    by the path: for a non-empty base, [get_full_webhook_url] returns
    [b ++ WEBHOOK_PATH] where [b] does not end in a slash and the base is [b]
    followed by slashes only. *)
Theorem webhook_url_joins_base_and_path (base : string) :
  WEBHOOK_BASE_URL C = Some base ->
  base <> EmptyString ->
  exists b n,
    base = (b ++ slashes n)%string /\
    ends_with_slash b = false /\
    get_full_webhook_url C = Ret (b ++ WEBHOOK_PATH C)%string.
Proof.
  intros Hb Hne. destruct (rstrip_slash_spec base) as [H1 [n H2]].
  exists (rstrip_slash base), n. split; [exact H2|]. split; [exact H1|].
  unfold get_full_webhook_url. rewrite Hb.
  destruct base; [contradiction|reflexivity].
Qed.

Lemma config_complete_fields :
  config_complete C = true ->
  (exists u, LEARNINGBOX_API_ENDPOINT C = Some u) /\
  (exists u, RISEUP_API_ENDPOINT C = Some u) /\
  (exists c s, WEBHOOK_BASE_URL C = Some (String c s)).
Proof.
  unfold config_complete. intros H.
  repeat (apply andb_prop in H; destruct H as [H ?]).
  repeat split.
  - destruct (LEARNINGBOX_API_ENDPOINT C); [eexists; reflexivity|discriminate].
  - destruct (RISEUP_API_ENDPOINT C); [eexists; reflexivity|discriminate].
  - destruct (WEBHOOK_BASE_URL C) as [[|c s]|]; try discriminate.
    eexists; eexists; reflexivity.
Qed.

Lemma valid_config_initialises_aux (w : world) :
  validate_config C = Ret tt ->
  exists lb_client riseup_client webhook_url,
    main_init C w = (Ret (Some (lb_client, riseup_client, webhook_url)), w).
Proof.
  intros Hv.
  assert (Hc : config_complete C = true).
  { rewrite validate_config_eq in Hv.
    destruct (config_complete C); [reflexivity|discriminate]. }
  destruct (config_complete_fields Hc) as [[u1 H1] [[u2 H2] [c [s H3]]]].
  unfold main_init, try_except, bind, lift.
  rewrite Hv. unfold LearningBoxClient_init, RiseUpClient_init, get_full_webhook_url.
  rewrite H1, H2, H3. eexists; eexists; eexists. reflexivity.
Qed.

(** X11. Once [validate_config] has accepted the configuration nothing else
    in the opening block of [main] can fail: both clients are built, the
    webhook URL is computed, and nothing has happened in the world.  The
    webhook module builds its client under the same condition. *)
Theorem valid_config_initialises (w : world) :
  validate_config C = Ret tt ->
  exists lb_client riseup_client webhook_url,
    main_init C w = (Ret (Some (lb_client, riseup_client, webhook_url)), w) /\
    get_full_webhook_url C = Ret webhook_url /\
    webhook_riseup_client C = Ret (Some riseup_client).
Proof.
  intros Hv.
  assert (Hc : config_complete C = true).
  { rewrite validate_config_eq in Hv.
    destruct (config_complete C); [reflexivity|discriminate]. }
  destruct (config_complete_fields Hc) as [[u1 H1] [[u2 H2] [c [s H3]]]].
  unfold main_init, try_except, bind, lift, webhook_riseup_client.
  rewrite Hv. unfold LearningBoxClient_init, RiseUpClient_init, get_full_webhook_url.
  rewrite H1, H2, H3. eexists; eexists; eexists. repeat split.
Qed.

(** X12. With a configuration that [validate_config] rejects, [main] prints
    the initialisation error and returns: no request to either system, no
    access to the mapping file. *)
Theorem invalid_config_stops_main (w : world) :
  validate_config C = Raise ValueError ->
  main L E C w = (Ret tt, with_event w (Print InitializationError)).
Proof.
  intros Hv. unfold main, bind at 1, main_init, try_except, bind, lift.
  rewrite Hv. reflexivity.
Qed.

(** The part of [main] that follows a successful start. *)
Lemma main_after_init (w : world) :
  validate_config C = Ret tt ->
  exists lb_client riseup_client webhook_url,
    main L E C w =
    (existing_mapping <- load_mapping ;;
     _ <- lift (py_len existing_mapping) ;;
     lb_catalog <- get_catalog E lb_client ;;
     if negb (py_truthy lb_catalog) then emit (Print NoCoursesFound)
     else
       _ <- lift (py_len lb_catalog) ;;
       courses <- lift (py_iter lb_catalog) ;;
       t <- for_each (main_loop_body L E C lb_client riseup_client webhook_url
                                     existing_mapping)
                     courses (mkTally 0 0 0) ;;
       emit (Print (SyncProcessComplete (success_count t) (skip_count t)
                                        (fail_count t)))) w.
Proof.
  intros Hv. destruct (valid_config_initialises_aux w Hv) as (lb & ru & url & Hi).
  exists lb, ru, url. unfold main, bind at 1. rewrite Hi. reflexivity.
Qed.

(** X13. A failure of the catalog request is not caught by [main]: when the
    exchange raises, [main] ends with that exception right after it, with
    no tally and nothing else done.  (A mapping file on which [json.load]
    fails otherwise than by a [JSONDecodeError] ends [main] earlier still,
    with that failure and before any request.) *)
Theorem catalog_failure_aborts_main (e : exn) (w : world) :
  validate_config C = Ret tt ->
  (forall v, w_file w = Stored v -> exists n, py_len v = Ret n) ->
  learningbox E (w_trace w) "GET" "/learningbox/list" None = Raise e ->
  main L E C w
  = match w_file w with
    | Refused c => (Raise (load_exn c), w)
    | _ =>
      (Raise e, with_event w (LearningBox "GET" "/learningbox/list" None (Raise e)))
    end.
Proof.
  intros Hv Hlen Hr. destruct (main_after_init w Hv) as (lb & ru & url & ->).
  unfold bind at 1. rewrite load_mapping_eq.
  destruct (w_file w) as [| | |c|v] eqn:Hfile;
    [| | |reflexivity|destruct (Hlen v eq_refl) as [n Hn]];
    unfold bind at 1, lift; [cbn [py_len]..|rewrite Hn];
    unfold bind at 1, get_catalog, bind at 1, lb_make_request; rewrite Hr;
    reflexivity.
Qed.

(** X14. When the catalog answer is empty or is an object whose status is
    not ["ok"], [get_catalog] yields the empty list and [main] returns after
    the one request, having printed that no course was found: no Target LMS
    call, no write, no tally.  (A mapping file on which [json.load] fails
    otherwise than by a [JSONDecodeError] ends [main] before the request,
    with that failure.) *)
Theorem catalog_not_ok_ends_main (answer : pyval) (w : world) :
  validate_config C = Ret tt ->
  (forall v, w_file w = Stored v -> exists n, py_len v = Ret n) ->
  learningbox E (w_trace w) "GET" "/learningbox/list" None = Ret answer ->
  py_truthy answer = false \/
    (exists d, answer = PyDict d /\
               is_str "ok" (match dict_get d "status" with Some s => s | None => PyNone end)
               = false) ->
  main L E C w
  = match w_file w with
    | Refused c => (Raise (load_exn c), w)
    | _ =>
      (Ret tt,
       with_event
         (with_event w (LearningBox "GET" "/learningbox/list" None (Ret answer)))
         (Print NoCoursesFound))
    end.
Proof.
  intros Hv Hlen Hr Hbad. destruct (main_after_init w Hv) as (lb & ru & url & ->).
  unfold bind at 1. rewrite load_mapping_eq.
  destruct (w_file w) as [| | |c|v] eqn:Hfile;
    [| | |reflexivity|destruct (Hlen v eq_refl) as [n Hn]];
    unfold bind at 1, lift; [cbn [py_len]..|rewrite Hn];
    unfold bind at 1, get_catalog, bind at 1, lb_make_request; rewrite Hr;
    (destruct Hbad as [Hf|(d & -> & Hs)];
     [ unfold bind, ret; rewrite Hf; reflexivity
     | unfold bind, ret, lift; cbn [py_get];
       destruct (py_truthy (PyDict d)); [rewrite Hs|]; reflexivity ]).
Qed.

End Startup.

(** * Further properties of the orchestrator *)

Section OrchestratorMore.

Variable L : pylib.
Variable E : remote.
Variable C : config.
Variable lb_client : LearningBoxClient.
Variable riseup_client : RiseUpClient.
Variable webhook_url : string.




Lemma bind_raise_eq {A B} (m : M A) (k : A -> M B) (w w' : world) (e : exn) :
  m w = (Raise e, w') -> bind m k w = (Raise e, w').
Proof. intros H. unfold bind. now rewrite H. Qed.

(** X15. The keyword list is the names of the tags that have a truthy name,
    in the order of the tags; tags without a name are left out. *)
Theorem tag_names_of_dict_tags (ds : list pydict) :
  tag_names (map PyDict ds)
  = Ret (filter py_truthy
           (map (fun d => match dict_get d "name" with Some n => n | None => PyNone end)
                ds)).
Proof.
  induction ds as [|d ds IH]; [reflexivity|].
  cbn [map tag_names py_get filter]. rewrite IH.
  destruct (py_truthy _); reflexivity.
Qed.


(** X17. Uploading a cover or a banner never raises.  The call is made only
    when both the content and the file name are non-empty, and whatever it
    raises is swallowed. *)
Theorem upload_decoration_never_raises (up : list byte -> string -> riseup_call)
    (d : option (list byte * string)) (w : world) :
  upload_decoration E up riseup_client d w =
  match d with
  | Some (content, filename) =>
      if bytes_truthy content && str_truthy filename
      then (Ret tt,
            with_event w (RiseUp (up content filename)
                                 (riseup E (w_trace w) (up content filename))))
      else (Ret tt, w)
  | None => (Ret tt, w)
  end.
Proof.
  unfold upload_decoration. destruct d as [[content filename]|]; [|reflexivity].
  destruct (bytes_truthy content && str_truthy filename); [|reflexivity].
  unfold try_except, bind, call_riseup, with_event.
  destruct (riseup E (w_trace w) (up content filename)) as [v|e]; [reflexivity|].
  destruct (isinstance e RequestException || isinstance e ConnectionError);
    [reflexivity|].
  rewrite isinstance_Exception. reflexivity.
Qed.









Lemma add_or_update_mapping_keeps_value (a y : pyval) (k : string) (v : pyval)
    (w : world) :
  py_str L a <> k ->
  holds_value L k v w ->
  holds_value L k v (snd (add_or_update_mapping L a y w)).
Proof.
  intros Hne [Hw (m & Hf & Hm)]. unfold holds_value, add_or_update_mapping, bind.
  rewrite load_mapping_eq, Hf. cbn [lift py_setitem].
  unfold save_mapping, try_except, open_w_json_dump.
  destruct (w_writable w) eqn:Hwr; cbn.
  - rewrite Hf. split; [left; reflexivity|]. eexists; split; [reflexivity|].
    rewrite dict_get_set_other by congruence. exact Hm.
  - destruct Hw as [Hw|Hw]; [congruence|]. rewrite Hw. cbn.
    split; [right; exact Hw|]. exists m. split; assumption.
Qed.

Lemma frames_keep_value {A} (m0 : M A) (k : string) (v : pyval) (w : world) :
  frames_file m0 ->
  holds_value L k v w ->
  holds_value L k v (snd (m0 w)).
Proof.
  intros Hfr [Hw (m & Hf & Hm)]. split; [now apply whole_of_frames|].
  exists m. split; [|exact Hm].
  destruct (Hfr w) as [H1 _]. now rewrite H1.
Qed.

Lemma main_loop_body_keeps_value (snap : pydict) (t : tally) (lb_course : pyval)
    (k : string) (v : pyval) (w : world) :
  dict_has snap k = true ->
  holds_value L k v w ->
  holds_value L k v
    (snd (main_loop_body L E C lb_client riseup_client webhook_url
            (PyDict snap) t lb_course w)).
Proof.
  intros Hk Hinv. unfold main_loop_body, bind at 1, lift.
  destruct (py_get lb_course "id" PyNone) as [lb_id|e]; [|exact Hinv].
  destruct (py_truthy lb_id); [|exact Hinv]. cbn [negb].
  unfold bind at 1, lift. cbn [py_contains].
  destruct (dict_has snap (py_str L lb_id)) eqn:Hin; [exact Hinv|].
  assert (Hne : py_str L lb_id <> k) by (intros Heq; rewrite Heq in Hin; congruence).
  unfold bind at 1.
  pose proof (frames_keep_value (sync_course_structure L E lb_course riseup_client)
                k v w (frames_sync_course_structure L E lb_course riseup_client) Hinv)
    as H1.
  destruct (sync_course_structure L E lb_course riseup_client w) as [[step|e] w1];
    [|exact H1]. cbn [snd] in H1.
  destruct (py_truthy step); [|exact H1].
  unfold bind at 1.
  pose proof (add_or_update_mapping_keeps_value lb_id step k v w1 Hne H1) as H2.
  destruct (add_or_update_mapping L lb_id step w1) as [[[]|e] w2]; [|exact H2].
  cbn [snd] in H2. unfold bind.
  pose proof (frames_keep_value
                (request_scorm_export L E C lb_client lb_id webhook_url) k v w2
                (frames_request_scorm_export L E C lb_client lb_id webhook_url) H2)
    as H3.
  destruct (request_scorm_export L E C lb_client lb_id webhook_url w2) as [[r|e] w3];
    [|exact H3].
  destruct (negb (is_none r)); exact H3.
Qed.

Lemma for_each_keeps_value (snap : pydict) (courses : list pyval)
    (k : string) (v : pyval) :
  dict_has snap k = true ->
  forall (t : tally) (w : world),
    holds_value L k v w ->
    holds_value L k v
      (snd (for_each (main_loop_body L E C lb_client riseup_client webhook_url
                                     (PyDict snap))
                     courses t w)).
Proof.
  intros Hk. induction courses as [|c cs IH]; intros t w Hinv; [exact Hinv|].
  cbn [for_each]. unfold bind.
  pose proof (main_loop_body_keeps_value snap t c k v w Hk Hinv) as H1.
  destruct (main_loop_body L E C lb_client riseup_client webhook_url (PyDict snap) t c w)
    as [[t'|e] w1]; [|exact H1].
  apply IH. exact H1.
Qed.

(** X20. A run never changes an entry it found, unless a write is cut short.
    If a key is in the snapshot and the file holds a value under it, and
    the writes of the run either go through or fail at [open], the loop
    leaves that value in place, whatever the catalog holds and however the
    loop ends: a course listed under that key is skipped, and every write
    goes to another key.  (A write that fails after [open] has truncated the
    file loses every entry.) *)
Theorem snapshot_entries_are_never_rewritten (snap : pydict) (courses : list pyval)
    (k : string) (v : pyval) :
  dict_has snap k = true ->
  forall (t : tally) (w : world),
    writes_are_whole L w ->
    (exists m, w_file w = Stored (PyDict m) /\ dict_get m k = Some v) ->
    exists m,
      w_file (snd (for_each (main_loop_body L E C lb_client riseup_client webhook_url
                                            (PyDict snap))
                            courses t w)) = Stored (PyDict m) /\
      dict_get m k = Some v.
Proof.
  intros Hk t w Hw Hinv.
  apply (for_each_keeps_value snap courses k v Hk t w). split; assumption.
Qed.

End OrchestratorMore.

(** * Further properties of the webhook receiver *)

Section WebhookMore.

Variable L : pylib.
Variable E : remote.
Variable C : config.

Lemma envelope_same (w : world) (codes : list nat) (o : outcome response) :
  match o with Ret resp => In (status_code resp) codes | Raise _ => True end ->
  within_envelope w codes (o, w).
Proof.
  intros Ho. split; [reflexivity|]. split; [reflexivity|]. split; [|exact Ho].
  exists []. split; [cbn; now rewrite app_nil_r|]. left; reflexivity.
Qed.

Lemma envelope_grow (w : world) (codes : list nat) (o : outcome response)
    (new : list event) :
  webhook_events new ->
  match o with Ret resp => In (status_code resp) codes | Raise _ => True end ->
  within_envelope w codes
    (o, mkWorld (w_file w) (w_writable w) (w_trace w ++ new)).
Proof.
  intros Hn Ho. split; [reflexivity|]. split; [reflexivity|].
  split; [|exact Ho]. exists new. split; [reflexivity|exact Hn].
Qed.

(** The guarded part of the handler stays within the envelope. *)
Lemma webhook_pipeline_envelope (client : RiseUpClient) (req : request) (w : world) :
  within_envelope w [200; 400; 502] (webhook_pipeline L E client req w).
Proof.
  unfold webhook_pipeline, bind at 1, lift.
  destruct (parse_qs L (data req)) as [parsed|e]; [|now apply envelope_same].
  destruct (qs_falsy (qs_get parsed "modules[0][id]")
            || qs_falsy (qs_get parsed "modules[0][zip]"));
    [apply envelope_same; cbn; auto|].
  destruct (qs_get parsed "modules[0][id]") as [[|lb_course_id ids]|];
    try (apply envelope_same; cbn; auto).
  destruct (qs_get parsed "modules[0][zip]") as [[|scorm_zip_b64 zips]|];
    try (apply envelope_same; cbn; auto).
  unfold bind at 1, get_riseup_step_id, bind at 1.
  destruct (load_mapping_world w) as [loaded ->].
  destruct loaded as [mapping|e]; [|now apply envelope_same].
  unfold lift.
  destruct (py_get _ _ _) as [riseup_step_id|e]; [|now apply envelope_same].
  destruct (py_truthy riseup_step_id); cbn [negb];
    [|apply envelope_same; cbn; auto].
  unfold bind at 1, try_except at 1, bind at 1, base64_b64decode, bind at 1.
  cbn [emit lift].
  destruct (b64decode L scorm_zip_b64) as [scorm_zip_bytes|e].
  - cbn [ret]. unfold try_except, bind, call_riseup. cbn [w_trace w_file w_writable].
    rewrite <- app_assoc. cbn [app].
    match goal with |- context [riseup E ?tr ?c] =>
      destruct (riseup E tr c) as [v|e] end.
    + apply envelope_grow; [|cbn; auto].
      right; right. do 5 eexists. reflexivity.
    + destruct (isinstance e RequestException || isinstance e ConnectionError).
      * apply envelope_grow; [|cbn; auto].
        right; right. do 5 eexists. reflexivity.
      * apply envelope_grow; [|exact I].
        right; right. do 5 eexists. reflexivity.
  - destruct (isinstance e binascii_Error).
    + apply envelope_grow; [|cbn; auto]. right; left. eexists; reflexivity.
    + apply envelope_grow; [|exact I]. right; left. eexists; reflexivity.
Qed.

(** The handler as a whole: it returns a response and stays within the
    envelope. *)
Lemma handler_envelope (riseup_client : option RiseUpClient) (req : request)
    (w : world) :
  within_envelope w [200; 400; 500; 502]
                  (handle_learningbox_webhook L E riseup_client req w) /\
  exists resp, fst (handle_learningbox_webhook L E riseup_client req w) = Ret resp.
Proof.
  unfold handle_learningbox_webhook. destruct riseup_client as [client|].
  - unfold try_except.
    pose proof (webhook_pipeline_envelope client req w) as (Hf & Hw & Hn & Hc).
    destruct (webhook_pipeline L E client req w) as [[resp|e] w1]; cbn [snd fst] in *.
    + split; [|eexists; reflexivity].
      split; [exact Hf|]. split; [exact Hw|]. split; [exact Hn|].
      cbn in Hc. cbn. intuition.
    + rewrite isinstance_Exception. split; [|eexists; reflexivity].
      split; [exact Hf|]. split; [exact Hw|]. split; [exact Hn|]. cbn. auto.
  - split; [|eexists; reflexivity]. apply envelope_same. cbn. auto.
Qed.

(** X21. The receiver never lets an exception out: for every request, with
    or without a configured client, whatever the mapping file holds and
    whatever the Target LMS does, the handler returns a response, and its
    status is 200, 400, 500 or 502. *)
Theorem handler_always_answers (riseup_client : option RiseUpClient)
    (req : request) (w : world) :
  exists resp,
    fst (handle_learningbox_webhook L E riseup_client req w) = Ret resp /\
    In (status_code resp) [200; 400; 500; 502].
Proof.
  destruct (handler_envelope riseup_client req w) as [(_ & _ & _ & Hc) [resp Hr]].
  exists resp. split; [exact Hr|]. now rewrite Hr in Hc.
Qed.

(** X22. What a request can do is bounded: the handler never writes the
    mapping file, and it adds to the trace nothing, or one decode, or one
    decode followed by one SCORM upload.  So there is at most one upload per
    request, never an upload without a decode before it, and never a call
    to the Source LMS or a creation call. *)
Theorem handler_effects_are_bounded (riseup_client : option RiseUpClient)
    (req : request) (w : world) :
  w_file (snd (handle_learningbox_webhook L E riseup_client req w)) = w_file w /\
  w_writable (snd (handle_learningbox_webhook L E riseup_client req w))
  = w_writable w /\
  exists new,
    w_trace (snd (handle_learningbox_webhook L E riseup_client req w))
    = w_trace w ++ new /\
    webhook_events new.
Proof.
  destruct (handler_envelope riseup_client req w) as [(Hf & Hw & Hn & _) _].
  auto.
Qed.

(** X23. A request that lacks one of the two fields is answered with 400
    before the mapping is looked up: the answer is the same whatever the
    mapping file holds, even content on which a lookup would fail, and
    nothing happens in the world. *)
Theorem missing_field_is_client_error (client : RiseUpClient) (req : request)
    (parsed : list (string * list string)) (w : world) :
  parse_qs L (data req) = Ret parsed ->
  qs_falsy (qs_get parsed "modules[0][id]")
  || qs_falsy (qs_get parsed "modules[0][zip]") = true ->
  handle_learningbox_webhook L E (Some client) req w
  = (Ret (mkResponse "error" "Missing required data fields" 400), w).
Proof.
  intros Hp Hm. unfold handle_learningbox_webhook, try_except, webhook_pipeline,
    bind, lift. rewrite Hp, Hm. reflexivity.
Qed.

(** X24. On a mapping file that holds JSON of the wrong shape the lookup
    fails inside the handler and the outer handler turns it into a 500: a
    well-formed request is answered "Internal server error", with no decode
    and no upload. *)
Theorem wrong_shape_store_is_server_error (client : RiseUpClient) (req : request)
    (id zip : string) (v : pyval) (w : world) :
  well_formed L req id zip ->
  w_file w = Stored v ->
  is_dict v = false ->
  handle_learningbox_webhook L E (Some client) req w
  = (Ret (mkResponse "error" "Internal server error" 500), w).
Proof.
  intros Hwf Hf Hv. unfold handle_learningbox_webhook, try_except.
  rewrite (webhook_pipeline_well_formed L E client req id zip w Hwf).
  unfold bind at 1, get_riseup_step_id, bind at 1. rewrite load_mapping_eq, Hf.
  destruct v; try discriminate; reflexivity.
Qed.

(** X25. With a configuration that [validate_config] rejects the webhook
    module keeps no client, and the handler then answers every request with
    500 "Server configuration error" without reading the request or touching
    anything. *)
Theorem unconfigured_receiver_refuses_everything (req : request) (w : world) :
  validate_config C = Raise ValueError ->
  exists client,
    webhook_riseup_client C = Ret client /\
    handle_learningbox_webhook L E client req w
    = (Ret (mkResponse "error" "Server configuration error" 500), w).
Proof.
  intros Hv. exists None. unfold webhook_riseup_client. rewrite Hv.
  split; reflexivity.
Qed.

(** X26. Only [binascii.Error] makes a bad payload a client error.  When the
    decoder raises anything else on the payload of a mapped course, the
    answer is 500 "Internal server error"; the decode attempt is the only
    thing that happened, so no upload call was made. *)
Theorem other_decode_failure_is_server_error (client : RiseUpClient) (req : request)
    (id zip : string) (m : pydict) (step : pyval) (e : exn) (w : world) :
  well_formed L req id zip ->
  w_file w = Stored (PyDict m) ->
  dict_get m id = Some step ->
  py_truthy step = true ->
  b64decode L zip = Raise e ->
  isinstance e binascii_Error = false ->
  handle_learningbox_webhook L E (Some client) req w
  = (Ret (mkResponse "error" "Internal server error" 500),
     with_event w (B64Decode zip)).
Proof.
  intros Hwf Hf Hm Hstep Hdec He.
  unfold handle_learningbox_webhook, try_except at 1.
  rewrite (webhook_pipeline_well_formed L E client req id zip w Hwf).
  unfold bind at 1. rewrite (get_riseup_step_id_stored L id m step w Hf Hm), Hstep.
  cbn [negb]. unfold bind at 1, try_except at 1, bind at 1, base64_b64decode, bind at 1.
  cbn [emit lift]. rewrite Hdec, He. unfold raise. rewrite isinstance_Exception.
  reflexivity.
Qed.

End WebhookMore.

(** * The headers of a Source LMS request *)

(** X29. Whatever headers the caller passes to [_make_request], the API key
    header sent is the client's own; every other header the caller gave is
    sent unchanged; [Accept] defaults to JSON; and [Content-Type] is added,
    as JSON, exactly for a POST or PUT that carries a JSON body and no
    content type of the caller's. *)
Theorem lb_request_headers_spec (self : LearningBoxClient) (method : string)
    (has_json : bool) (headers : pydict) :
  dict_get (lb_request_headers self method has_json headers) "X-Gravitee-Api-Key"
  = Some (match lb_api_key self with Some k => PyStr k | None => PyNone end) /\
  (forall k v, k <> "X-Gravitee-Api-Key" -> dict_get headers k = Some v ->
               dict_get (lb_request_headers self method has_json headers) k = Some v) /\
  (dict_get headers "Accept" = None ->
   dict_get (lb_request_headers self method has_json headers) "Accept"
   = Some (PyStr "application/json")) /\
  (dict_get headers "Content-Type" = None ->
   dict_get (lb_request_headers self method has_json headers) "Content-Type"
   = if (String.eqb method "POST" || String.eqb method "PUT") && has_json
     then Some (PyStr "application/json") else None).
Proof.
  unfold lb_request_headers.
  set (key := match lb_api_key self with Some k => PyStr k | None => PyNone end).
  set (h1 := dict_set headers "X-Gravitee-Api-Key" key).
  set (h2 := if dict_has h1 "Accept" then h1
             else dict_set h1 "Accept" (PyStr "application/json")).
  assert (G1 : forall k, k <> "X-Gravitee-Api-Key" -> dict_get h1 k = dict_get headers k).
  { intros k Hk. unfold h1. now apply dict_get_set_other. }
  assert (G2 : forall k, k <> "Accept" -> dict_get h2 k = dict_get h1 k).
  { intros k Hk. unfold h2. destruct (dict_has h1 "Accept"); [reflexivity|].
    now apply dict_get_set_other. }
  assert (G2' : forall v, dict_get h1 "Accept" = Some v -> dict_get h2 "Accept" = Some v).
  { intros v Hv. unfold h2, dict_has. now rewrite Hv. }
  assert (K1 : dict_get h2 "X-Gravitee-Api-Key" = Some key).
  { rewrite G2 by discriminate. unfold h1. apply dict_get_set_same. }
  repeat split.
  - destruct (_ && _ && _); [|exact K1].
    rewrite dict_get_set_other by discriminate. exact K1.
  - intros k v Hk Hv.
    assert (H2 : dict_get h2 k = Some v).
    { destruct (String.eqb k "Accept") eqn:Hka.
      - apply String.eqb_eq in Hka. subst k. apply G2'. now rewrite G1.
      - apply String.eqb_neq in Hka. rewrite G2, G1; assumption. }
    destruct (_ && _ && negb (dict_has h2 "Content-Type")) eqn:Hc; [|exact H2].
    destruct (String.eqb k "Content-Type") eqn:Hkc.
    + apply String.eqb_eq in Hkc. subst k.
      apply andb_prop in Hc. destruct Hc as [_ Hc].
      unfold dict_has in Hc. rewrite H2 in Hc. discriminate.
    + apply String.eqb_neq in Hkc. rewrite dict_get_set_other; assumption.
  - intros Ha.
    assert (H2 : dict_get h2 "Accept" = Some (PyStr "application/json")).
    { unfold h2, dict_has. rewrite G1 by discriminate. rewrite Ha.
      apply dict_get_set_same. }
    destruct (_ && _ && _); [|exact H2].
    rewrite dict_get_set_other by discriminate. exact H2.
  - intros Hc.
    assert (H2 : dict_get h2 "Content-Type" = None).
    { rewrite G2, G1 by discriminate. exact Hc. }
    unfold dict_has. rewrite H2. cbn [negb]. rewrite andb_true_r.
    destruct (_ && has_json); [apply dict_get_set_same|exact H2].
Qed.

(** * Worked examples for the further properties *)

Lemma lookup_of_unknown_id_witness :
  get_riseup_step_id plain_lib (PyInt 7) mapped_world = (Ret PyNone, mapped_world).
Proof.
  apply (lookup_of_unknown_id plain_lib (PyInt 7) mapped_world).
  intros v Hv. injection Hv as <-. eexists. split; reflexivity.
Defined.

Lemma failed_write_is_silent_witness :
  (exists w',
      add_or_update_mapping plain_lib (PyInt 7) (PyInt 103) readonly_world = (Ret tt, w') /\
      w_file w' = w_file readonly_world /\
      fst (get_riseup_step_id plain_lib (PyInt 42) w') = Ret (PyInt 999)) /\
  (exists w',
      add_or_update_mapping cutting_lib (PyInt 7) (PyInt 103) readonly_world = (Ret tt, w') /\
      w_file w' = Garbled /\
      get_riseup_step_id cutting_lib (PyInt 42) w' = (Ret PyNone, w')).
Proof.
  split.
  - destruct (failed_write_is_silent plain_lib (PyInt 7) (PyInt 103) (PyInt 42)
                readonly_world eq_refl) as (w' & H1 & H2).
    + intros v Hv. injection Hv as <-. reflexivity.
    + intros c. discriminate.
    + cbn [plain_lib write_fails_at_open] in H2. destruct H2 as [H2 H3].
      exists w'. split; [exact H1|]. split; [exact H2|]. rewrite H3. reflexivity.
  - destruct (failed_write_is_silent cutting_lib (PyInt 7) (PyInt 103) (PyInt 42)
                readonly_world eq_refl) as (w' & H1 & H2).
    + intros v Hv. injection Hv as <-. reflexivity.
    + intros c. discriminate.
    + cbn [cutting_lib write_fails_at_open] in H2. destruct H2 as [H2 H3].
      exists w'. split; [exact H1|]. split; [exact H2|]. exact H3.
Defined.

Lemma upsert_keeps_other_entries_witness :
  fst (get_riseup_step_id plain_lib (PyStr "42")
         (snd (add_or_update_mapping plain_lib (PyInt 7) (PyInt 103) mapped_world)))
  = Ret (PyInt 999).
Proof.
  rewrite (upsert_keeps_other_entries plain_lib (PyInt 7) (PyInt 103) (PyStr "42")
             mapped_world).
  - reflexivity.
  - split; [reflexivity|exact I].
  - discriminate.
Defined.

Lemma second_upsert_overwrites_witness :
  w_file (snd ((add_or_update_mapping plain_lib (PyInt 42) (PyInt 1) ;;;
                add_or_update_mapping plain_lib (PyStr "42") (PyInt 2)) mapped_world))
  = Stored (PyDict [("42", PyInt 2)]).
Proof.
  rewrite (second_upsert_overwrites plain_lib (PyInt 42) (PyStr "42") (PyInt 1) (PyInt 2)
             mapped_world).
  - reflexivity.
  - split; [reflexivity|exact I].
  - reflexivity.
Defined.

Lemma upsert_keeps_key_order_witness :
  exists m,
    w_file (snd (add_or_update_mapping plain_lib (PyInt 7) (PyInt 103)
                   (mkWorld (Stored (PyDict [("42", PyInt 999); ("8", PyInt 108)]))
                            true [])))
    = Stored (PyDict m) /\
    map fst m = ["42"; "8"; "7"].
Proof.
  destruct (upsert_keeps_key_order plain_lib (PyInt 7) (PyInt 103)
              [("42", PyInt 999); ("8", PyInt 108)] [])
    as (m & H1 & H2 & _).
  - repeat constructor; cbn; intuition discriminate.
  - exists m. split; [exact H1|exact H2].
Defined.

Lemma upsert_on_wrong_shape_raises_witness :
  add_or_update_mapping plain_lib (PyInt 7) (PyInt 103) list_world
  = (Raise TypeError, list_world).
Proof.
  apply (upsert_on_wrong_shape_raises plain_lib (PyInt 7) (PyInt 103) (PyList []) true []).
  reflexivity.
Defined.

Lemma same_string_form_shares_entry_witness :
  fst (get_riseup_step_id plain_lib (PyStr "True")
         (snd (add_or_update_mapping plain_lib (PyBool true) (PyInt 5) mapped_world)))
  = Ret (PyInt 5).
Proof.
  apply (same_string_form_shares_entry plain_lib (PyBool true) (PyStr "True") (PyInt 5)
           mapped_world).
  - split; [reflexivity|exact I].
  - reflexivity.
Defined.

Lemma distinct_ids_do_not_collide_witness :
  fst (get_riseup_step_id plain_lib (PyInt 42)
         (snd (add_or_update_mapping plain_lib (PyInt 4) (PyInt 1) mapped_world)))
  = Ret (PyInt 999).
Proof.
  destruct (distinct_ids_do_not_collide plain_lib 4 42 (PyInt 1) mapped_world)
    as [_ H].
  - split; [reflexivity|exact I].
  - lia.
  - rewrite H. reflexivity.
Defined.

Lemma webhook_url_joins_base_and_path_witness :
  exists b n,
    "https://hook.example/" = (b ++ slashes n)%string /\
    ends_with_slash b = false /\
    get_full_webhook_url sample_config = Ret (b ++ "/learningbox_webhook")%string.
Proof.
  apply (webhook_url_joins_base_and_path sample_config "https://hook.example/").
  - reflexivity.
  - discriminate.
Defined.

Lemma valid_config_initialises_witness :
  exists lb_client riseup_client webhook_url,
    main_init sample_config fresh_world
    = (Ret (Some (lb_client, riseup_client, webhook_url)), fresh_world) /\
    get_full_webhook_url sample_config = Ret webhook_url /\
    webhook_riseup_client sample_config = Ret (Some riseup_client).
Proof.
  apply (valid_config_initialises sample_config fresh_world). reflexivity.
Defined.

Lemma invalid_config_stops_main_witness :
  main plain_lib unreachable_remote incomplete_config fresh_world
  = (Ret tt, mkWorld Missing true [Print InitializationError]).
Proof.
  apply (invalid_config_stops_main plain_lib unreachable_remote incomplete_config
           fresh_world).
  reflexivity.
Defined.

Lemma catalog_failure_aborts_main_witness :
  main plain_lib unreachable_remote sample_config fresh_world
  = (Raise RequestException,
     mkWorld Missing true
       [LearningBox "GET" "/learningbox/list" None (Raise RequestException)]).
Proof.
  apply (catalog_failure_aborts_main plain_lib unreachable_remote sample_config
           RequestException fresh_world).
  - reflexivity.
  - intros v Hv. discriminate.
  - reflexivity.
Defined.

Lemma catalog_not_ok_ends_main_witness :
  main plain_lib refusing_remote sample_config fresh_world
  = (Ret tt,
     mkWorld Missing true
       [LearningBox "GET" "/learningbox/list" None
          (Ret (PyDict [("status", PyStr "error")]));
        Print NoCoursesFound]).
Proof.
  apply (catalog_not_ok_ends_main plain_lib refusing_remote sample_config
           (PyDict [("status", PyStr "error")]) fresh_world).
  - reflexivity.
  - intros v Hv. discriminate.
  - reflexivity.
  - right. eexists. split; reflexivity.
Defined.


Lemma snapshot_entries_are_never_rewritten_witness :
  exists m,
    w_file (snd (for_each
                   (main_loop_body plain_lib
                      (scripted_remote two_courses export_ok (Ret PyNone))
                      sample_config sample_lb_client sample_riseup_client
                      sample_webhook_url (PyDict [("7", PyInt 1)]))
                   [PyDict intro_fields; PyDict [("id", PyInt 8); ("name", PyStr "Next")]]
                   (mkTally 0 0 0)
                   (mkWorld (Stored (PyDict [("7", PyInt 1)])) true [])))
    = Stored (PyDict m) /\
    dict_get m "7" = Some (PyInt 1).
Proof.
  apply (snapshot_entries_are_never_rewritten plain_lib
           (scripted_remote two_courses export_ok (Ret PyNone))
           sample_config sample_lb_client sample_riseup_client sample_webhook_url
           [("7", PyInt 1)]
           [PyDict intro_fields; PyDict [("id", PyInt 8); ("name", PyStr "Next")]]
           "7" (PyInt 1)).
  - reflexivity.
  - left. reflexivity.
  - eexists. split; reflexivity.
Defined.

Lemma missing_field_is_client_error_witness :
  handle_learningbox_webhook plain_lib unreachable_remote (Some sample_riseup_client)
    no_fields_request list_world
  = (Ret (mkResponse "error" "Missing required data fields" 400), list_world).
Proof.
  apply (missing_field_is_client_error plain_lib unreachable_remote
           sample_riseup_client no_fields_request [("modules[0][id]", ["42"])]
           list_world); reflexivity.
Defined.

Lemma wrong_shape_store_is_server_error_witness :
  handle_learningbox_webhook plain_lib unreachable_remote (Some sample_riseup_client)
    sample_request list_world
  = (Ret (mkResponse "error" "Internal server error" 500), list_world).
Proof.
  apply (wrong_shape_store_is_server_error plain_lib unreachable_remote
           sample_riseup_client sample_request "42" "aGk=" (PyList []) list_world).
  - exists [("modules[0][id]", ["42"]); ("modules[0][zip]", ["aGk="])], [], [].
    repeat split.
  - reflexivity.
  - reflexivity.
Defined.

Lemma unconfigured_receiver_refuses_everything_witness :
  exists client,
    webhook_riseup_client incomplete_config = Ret client /\
    handle_learningbox_webhook plain_lib unreachable_remote client sample_request
      mapped_world
    = (Ret (mkResponse "error" "Server configuration error" 500), mapped_world).
Proof.
  apply (unconfigured_receiver_refuses_everything plain_lib unreachable_remote
           incomplete_config sample_request mapped_world).
  reflexivity.
Defined.

Lemma other_decode_failure_is_server_error_witness :
  handle_learningbox_webhook strict_lib unreachable_remote (Some sample_riseup_client)
    latin_request mapped_world
  = (Ret (mkResponse "error" "Internal server error" 500),
     mkWorld (w_file mapped_world) true
             [B64Decode (String (Ascii.ascii_of_nat 233) EmptyString)]).
Proof.
  apply (other_decode_failure_is_server_error strict_lib unreachable_remote
           sample_riseup_client latin_request "42"
           (String (Ascii.ascii_of_nat 233) EmptyString)
           [("42", PyInt 999)] (PyInt 999) ValueError mapped_world).
  - exists [("modules[0][id]", ["42"]);
            ("modules[0][zip]", [String (Ascii.ascii_of_nat 233) EmptyString])], [], [].
    repeat split.
  - reflexivity.
  - reflexivity.
  - reflexivity.
  - reflexivity.
  - reflexivity.
Defined.

Lemma for_each_counts_witness :
  match fst (for_each (main_loop_body plain_lib
                         (scripted_remote two_courses export_ok (Ret PyNone))
                         sample_config sample_lb_client sample_riseup_client
                         sample_webhook_url (PyDict [("7", PyInt 1)]))
                      [PyDict intro_fields; PyDict zero_fields;
                       PyDict [("id", PyInt 8); ("name", PyStr "Next")]]
                      (mkTally 0 0 0) fresh_world) with
  | Ret t' => success_count t' + fail_count t' + skip_count t' = 3
  | Raise _ => False
  end.
Proof.
  destruct (for_each (main_loop_body plain_lib
                        (scripted_remote two_courses export_ok (Ret PyNone))
                        sample_config sample_lb_client sample_riseup_client
                        sample_webhook_url (PyDict [("7", PyInt 1)]))
                     [PyDict intro_fields; PyDict zero_fields;
                      PyDict [("id", PyInt 8); ("name", PyStr "Next")]]
                     (mkTally 0 0 0) fresh_world) as [[t'|e] w'] eqn:H.
  - exact (for_each_counts plain_lib
             (scripted_remote two_courses export_ok (Ret PyNone))
             sample_config sample_lb_client sample_riseup_client sample_webhook_url
             (PyDict [("7", PyInt 1)])
             [PyDict intro_fields; PyDict zero_fields;
              PyDict [("id", PyInt 8); ("name", PyStr "Next")]]
             (mkTally 0 0 0) t' fresh_world w' H).
  - vm_compute in H. discriminate.
Defined.

